(** * RDSInstance: a construct wrapping a managed relational database

    A shallow embedding of [RDSInstance.ts].  The class validates its
    configuration record, then either imports an existing database handle or
    asks the provisioning libraries for a new one, filling in defaults for
    the network, the subnet selection and the compute size.

    - Values that JavaScript may leave [undefined] are [option]s; the
      truthiness tests of the source ([x || y], [if (x)], [!x]) are written
      with [truthy] and [or_else].
    - A [throw new Error(msg)] is the result [Throw msg].
    - The construct tree that the provisioning libraries keep in memory is
      the state: a log of the constructor calls made into it ([World]), in
      call order.  Code that calls constructors lives in the monad [M], which
      threads the log and stops at the first [Throw]; the log keeps what was
      registered before the throw, as the heap of the source does.
    - What the libraries compute on their own (name prefixing, the id a node
      keeps, the handles their constructors return) is the interface
      [Provisioning].  Their constructors are taken to return: the tree
      accepts every id it is given.  The module [Fallible] runs the same
      constructor with library constructors that throw. *)

From Stdlib Require Import Ascii.
From stdpp Require Import base option strings list gmap.

Set Default Proof Using "Type".

(** ** JavaScript values *)

Module JS.

(** The double-quote character and a quoted word, as the template literals
    of the source spell them. *)
Definition dquote : string := String "034"%char EmptyString.
Definition quoted (s : string) : string := dquote +:+ s +:+ dquote.

(** [Boolean(x)] for an optional string: [undefined] and the empty string
    are falsy. *)
Definition truthy_string (o : option string) : bool :=
  match o with
  | Some s => negb (String.eqb s "")
  | None => false
  end.

(** [Boolean(x)] for an optional object: only [undefined] is falsy. *)
Definition truthy {A : Type} (o : option A) : bool :=
  match o with
  | Some _ => true
  | None => false
  end.

(** [a || b] on strings, the right operand being a string. *)
Definition or_else (a : option string) (b : string) : string :=
  match a with
  | Some s => if String.eqb s "" then b else s
  | None => b
  end.

(** Substring test, used to say that a message names a field. *)
Fixpoint includes (needle hay : string) : bool :=
  String.prefix needle hay ||
  match hay with
  | EmptyString => false
  | String _ rest => includes needle rest
  end.

End JS.

(** ** Results and the construction monad *)

Inductive result (A : Type) : Type :=
| Ok (a : A)
| Throw (msg : string).
Arguments Ok {A} a.
Arguments Throw {A} msg.

(** ** Handles and property records of the provisioning libraries *)

(** A construct is named by the ids on the way from the root of the tree. *)
Definition Path : Type := list string.

Inductive SubnetType : Type :=
| PUBLIC
| PRIVATE_WITH_EGRESS
| PRIVATE_ISOLATED.

Record SubnetSelection : Type := {
  subnetType : option SubnetType;
  subnetGroupName : option string;
}.

Inductive InstanceClass : Type :=
| BURSTABLE2
| BURSTABLE3
| STANDARD5
| MEMORY5.

Inductive InstanceSize : Type :=
| NANO
| MICRO
| SMALL
| MEDIUM
| LARGE.

(** [ec2.InstanceType.of(class, size)] *)
Record InstanceType : Type := InstanceType_of {
  instanceClass : InstanceClass;
  instanceSize : InstanceSize;
}.

Module MysqlEngineVersion.
Inductive t : Type := VER_5_6 | VER_5_7 | VER_8_0.
End MysqlEngineVersion.

Module PostgresEngineVersion.
Inductive t : Type := VER_10_14 | VER_11_13.
End PostgresEngineVersion.

(** [rds.DatabaseInstanceEngine.mysql({version})] and [.postgres({version})] *)
Module DatabaseInstanceEngine.
Inductive IInstanceEngine : Type :=
| mysql (version : MysqlEngineVersion.t)
| postgres (version : PostgresEngineVersion.t).
End DatabaseInstanceEngine.
Export DatabaseInstanceEngine.

(** [secretsManager.ISecret]: the two attributes the class reads. *)
Record ISecret : Type := {
  s_secretArn : string;
  s_secretFullArn : option string;
}.

(** [rds.Credentials]: the [secret] attribute is what the class tests. *)
Record Credentials : Type := {
  c_username : string;
  c_password : option string;
  c_secret : option ISecret;
}.

(** [ec2.IVpc]: a network handle. *)
Record IVpc : Type := {
  vpcId : string;
}.

(** Properties given to [new ec2.Vpc]. *)
Record VpcProps : Type := {
  natGateways : option nat;
}.

Record Endpoint : Type := {
  hostname : string;
}.

(** [rds.IDatabaseInstance] / [rds.DatabaseInstance]: the attributes the
    class reads from a database handle.  A field is what a read of the
    attribute returns; the properties below speak of single reads. *)
Record IDatabaseInstance : Type := {
  di_instanceArn : string;
  di_instanceIdentifier : string;
  di_instanceEndpoint : Endpoint;
  di_secret : option ISecret;
}.

(** [RDSCdkDatabaseInstanceProps], the override bag [cdk.instance].  The
    first three fields are the ones the class reads through [as any]; the
    others stand for the properties it passes through.  A field is [None]
    when the bag has no such key or holds [undefined] under it: the class
    cannot tell the two apart, except for [instanceIdentifier], which the
    spread of [createInstance] writes over a default.  There [None] is a bag
    without the key, [Some None] a bag that holds [undefined] under it, and
    [Some (Some s)] a bag that holds the string. *)
Record RDSCdkDatabaseInstanceProps : Type := {
  bag_engine : option IInstanceEngine;
  bag_vpc : option IVpc;
  bag_databaseName : option string;
  bag_credentials : option Credentials;
  bag_vpcSubnets : option SubnetSelection;
  bag_instanceType : option InstanceType;
  bag_instanceIdentifier : option (option string);
  bag_allocatedStorage : option nat;
  bag_multiAz : option bool;
}.

(** The object literal [{}]. *)
Definition empty_bag : RDSCdkDatabaseInstanceProps :=
  {| bag_engine := None; bag_vpc := None; bag_databaseName := None;
     bag_credentials := None; bag_vpcSubnets := None;
     bag_instanceType := None; bag_instanceIdentifier := None;
     bag_allocatedStorage := None; bag_multiAz := None |}.

(** [cdk.instance: rds.IDatabaseInstance | RDSCdkDatabaseInstanceProps] *)
Inductive CdkInstance : Type :=
| IsConstruct (handle : IDatabaseInstance)
| IsProps (bag : RDSCdkDatabaseInstanceProps).

Record CdkProps : Type := {
  cdk_id : option string;
  cdk_instance : option CdkInstance;
  cdk_secret : option ISecret;
}.

(** [RDSInstanceProps], the configuration record. *)
Record RDSInstanceProps : Type := {
  p_vpc : option IVpc;
  p_databaseName : string;
  p_engine : string;
  p_cdk : option CdkProps;
}.

(** The object literal passed to [new rds.DatabaseInstance]. *)
Record DatabaseInstanceProps : Type := {
  dp_instanceIdentifier : option string;
  dp_engine : IInstanceEngine;
  dp_vpc : IVpc;
  dp_vpcSubnets : option SubnetSelection;
  dp_instanceType : option InstanceType;
  dp_databaseName : string;
  dp_credentials : option Credentials;
  dp_allocatedStorage : option nat;
  dp_multiAz : option bool;
}.

(** One constructor call into the construct tree. *)
Inductive Registered : Type :=
| NewConstruct (scope : Path) (id : string)
| NewVpc (scope : Path) (id : string) (props : VpcProps)
| NewDatabaseInstance (scope : Path) (id : string) (props : DatabaseInstanceProps).

Definition World : Type := list Registered.

Definition M (A : Type) : Type := World -> result A * World.

Global Instance M_ret : MRet M := λ A a w, (Ok a, w).

Global Instance M_bind : MBind M := λ A B k m w,
  match m w with
  | (Ok a, w') => k a w'
  | (Throw msg, w') => (Throw msg, w')
  end.

Definition register (r : Registered) : M unit := λ w, (Ok tt, w ++ [r]).

(** The database instances a log holds, oldest first. *)
Definition instances_of (w : World) : list DatabaseInstanceProps :=
  omap (fun r => match r with
                 | NewDatabaseInstance _ _ p => Some p
                 | _ => None
                 end) w.

(** The networks a log holds, oldest first. *)
Definition networks_of (w : World) : list VpcProps :=
  omap (fun r => match r with
                 | NewVpc _ _ p => Some p
                 | _ => None
                 end) w.

(** Pure code that may throw runs in [result]; [lift] brings it into [M]. *)
Global Instance result_ret : MRet result := λ A a, Ok a.

Global Instance result_bind : MBind result := λ A B k r,
  match r with
  | Ok a => k a
  | Throw msg => Throw msg
  end.

Definition lift {A : Type} (r : result A) : M A := λ w, (r, w).

(** ** What the provisioning libraries decide *)

Class Provisioning : Type := {
  (** [app.logicalPrefixedName(name)]: the stack-scoped prefix put in front
      of a logical name. *)
  logicalPrefixedName : string -> string;
  (** The id a node keeps when a construct is created under a given id
      ([this.node.id] after [super(scope, id)]). *)
  node_id_of : string -> string;
  (** The handle [new ec2.Vpc(scope, id, props)] evaluates to. *)
  ec2_Vpc : Path -> string -> VpcProps -> IVpc;
  (** The handle [new rds.DatabaseInstance(scope, id, props)] evaluates to. *)
  rds_DatabaseInstance : Path -> string -> DatabaseInstanceProps -> IDatabaseInstance;
  (** The unchecked casts of the source.  [cdk.instance as
      RDSCdkDatabaseInstanceProps] reads a handle as a property bag, and
      [cdk.instance as rds.DatabaseInstance] reads a bag (or [undefined]) as a
      handle; the constructor reaches neither. *)
  handle_as_props : IDatabaseInstance -> RDSCdkDatabaseInstanceProps;
  props_as_handle : option RDSCdkDatabaseInstanceProps -> IDatabaseInstance;
}.

(** ** The class *)

Record Node : Type := {
  node_scope : Path;
  node_id : string;
}.

(** [this], seen as a scope for the constructs created under it. *)
Definition node_path (n : Node) : Path := node_scope n ++ [node_id n].

Record RDSInstance : Type := {
  this_node : Node;
  this_id : string;
  this_cdk_instance : IDatabaseInstance;
  this_props : RDSInstanceProps;
  this_secret : option ISecret;
}.

(** [FunctionBindingProps] *)
Record BindingVariable : Type := {
  var_type : string;
  var_value : string;
}.

Record FunctionBindingProps : Type := {
  clientPackage : string;
  variables : gmap string BindingVariable;
  permissions : gmap string (list string);
}.

Record ConstructMetadata : Type := {
  md_type : string;
  md_engine : string;
  md_secretArn : string;
  md_instanceArn : string;
  md_instanceIdentifier : string;
  md_databaseName : string;
}.

(** *** Error messages *)

Definition missing_secret_message (node_id : string) : string :=
  "Missing " +:+ JS.quoted "cdk.secret" +:+ " in the " +:+ JS.quoted node_id
  +:+ " RDS. You must provide a secret to import an existing RDS Serverless Instance.".

Definition engine_conflict_message : string :=
  "Use " +:+ JS.quoted "engine" +:+ " instead of "
  +:+ JS.quoted "cdk.instance.engine"
  +:+ " to configure the RDS database engine.".

Definition vpc_conflict_message : string :=
  "Use " +:+ JS.quoted "vpc" +:+ " instead of "
  +:+ JS.quoted "cdk.instance.vpc"
  +:+ " to configure the RDS database vpc.".

Definition databaseName_conflict_message : string :=
  "Use " +:+ JS.quoted "databaseName" +:+ " instead of "
  +:+ JS.quoted "cdk.instance.databaseName"
  +:+ " to configure the RDS database engine.".

Definition credentials_message : string :=
  "Only credentials managed by SecretManager are supported for the "
  +:+ JS.quoted "cdk.instance.credentials" +:+ ".".

Definition unsupported_engine_message : string :=
  "The specified " +:+ JS.quoted "engine"
  +:+ " is not supported for sst.RDS. Only mysql5.6, mysql5.7, postgresql10.14, and postgresql11.13 engines are currently supported.".

(** Reading a property of [undefined]. *)
Definition type_error (property : string) : string :=
  "TypeError: Cannot read properties of undefined (reading '" +:+ property +:+ "')".

(** *** Guards *)

(** [isCDKConstruct(x)] *)
Definition isCDKConstruct (x : option CdkInstance) : bool :=
  match x with
  | Some (IsConstruct _) => true
  | _ => false
  end.

(** [cdk && isCDKConstruct(cdk.instance)] *)
Definition takes_import_path (props : RDSInstanceProps) : bool :=
  match p_cdk props with
  | Some cdk => isCDKConstruct (cdk_instance cdk)
  | None => false
  end.

Section Class.
Context `{Provisioning}.

(** [(cdk?.instance || {}) as RDSCdkDatabaseInstanceProps] *)
Definition instanceProps_of (props : RDSInstanceProps) : RDSCdkDatabaseInstanceProps :=
  match p_cdk props ≫= cdk_instance with
  | Some (IsProps bag) => bag
  | Some (IsConstruct handle) => handle_as_props handle
  | None => empty_bag
  end.

Definition validateCDKPropWhenIsConstruct
    (node : Node) (props : RDSInstanceProps) : result unit :=
  if negb (JS.truthy (p_cdk props ≫= cdk_secret))
  then Throw (missing_secret_message (node_id node))
  else Ok tt.

Definition validateCDKPropWhenIsInstanceProps
    (this_props : RDSInstanceProps) : result RDSCdkDatabaseInstanceProps :=
  let props := instanceProps_of this_props in
  if JS.truthy (bag_engine props) then Throw engine_conflict_message
  else if JS.truthy (bag_vpc props) then Throw vpc_conflict_message
  else if JS.truthy_string (bag_databaseName props)
    then Throw databaseName_conflict_message
  else if JS.truthy (bag_credentials props)
          && negb (JS.truthy (bag_credentials props ≫= c_secret))
    then Throw credentials_message
  else Ok props.

Definition importInstance (this_props : RDSInstanceProps) : result IDatabaseInstance :=
  match p_cdk this_props with
  | None => Throw (type_error "instance")
  | Some cdk =>
      match cdk_instance cdk with
      | Some (IsConstruct handle) => Ok handle
      | Some (IsProps bag) => Ok (props_as_handle (Some bag))
      | None => Ok (props_as_handle None)
      end
  end.

Definition getEngine (engine : string) : result IInstanceEngine :=
  if String.eqb engine "mysql5.7"
  then Ok (mysql MysqlEngineVersion.VER_5_7)
  else if String.eqb engine "postgresql11.13"
  then Ok (postgres PostgresEngineVersion.VER_11_13)
  else Throw unsupported_engine_message.

Definition default_vpc_props : VpcProps := {| natGateways := Some 0 |}.

Definition getVpc (node : Node) (vpc : option IVpc) : M IVpc :=
  match vpc with
  | Some v => mret v
  | None =>
      register (NewVpc (node_path node) "vpc" default_vpc_props);;
      mret (ec2_Vpc (node_path node) "vpc" default_vpc_props)
  end.

Definition isolated_subnets : SubnetSelection :=
  {| subnetType := Some PRIVATE_ISOLATED; subnetGroupName := None |}.

Definition getVpcSubnets (props : RDSCdkDatabaseInstanceProps)
  : option SubnetSelection :=
  if JS.truthy (bag_vpc props)
  then bag_vpcSubnets props
  else Some isolated_subnets.

Definition getInstanceType (props : RDSCdkDatabaseInstanceProps)
  : option InstanceType :=
  if JS.truthy (bag_instanceType props)
  then bag_instanceType props
  else Some (InstanceType_of BURSTABLE3 SMALL).

(** The object literal of [createInstance]: the prefixed identifier, then
    the spread of the bag over it, which replaces the identifier whenever
    the bag has the key, then the five fields that the class sets itself
    and that win over the bag. *)
Definition instance_literal
    (node : Node) (this_props : RDSInstanceProps)
    (instanceProps : RDSCdkDatabaseInstanceProps)
    (engine : IInstanceEngine) (vpc : IVpc) : DatabaseInstanceProps :=
  {| dp_instanceIdentifier :=
       match bag_instanceIdentifier instanceProps with
       | Some overridden => overridden
       | None => Some (logicalPrefixedName (node_id node))
       end;
     dp_credentials := bag_credentials instanceProps;
     dp_allocatedStorage := bag_allocatedStorage instanceProps;
     dp_multiAz := bag_multiAz instanceProps;
     dp_engine := engine;
     dp_vpc := vpc;
     dp_vpcSubnets := getVpcSubnets instanceProps;
     dp_instanceType := getInstanceType instanceProps;
     dp_databaseName := p_databaseName this_props |}.

Definition createInstance (node : Node) (this_props : RDSInstanceProps)
  : M IDatabaseInstance :=
  let instanceProps := instanceProps_of this_props in
  engine ← lift (getEngine (JS.or_else (Some (p_engine this_props)) "mysql5.7"));
  vpc ← getVpc node (p_vpc this_props);
  let literal := instance_literal node this_props instanceProps engine vpc in
  register (NewDatabaseInstance (node_path node) "DB" literal);;
  mret (rds_DatabaseInstance (node_path node) "DB" literal).

(** The node made by [super(scope, props.cdk?.id || id)]. *)
Definition super_node (scope : Path) (id : string) (props : RDSInstanceProps) : Node :=
  {| node_scope := scope;
     node_id := node_id_of (JS.or_else (p_cdk props ≫= cdk_id) id) |}.

(** [new RDSInstance(scope, id, props)] *)
Definition new_RDSInstance (scope : Path) (id : string) (props : RDSInstanceProps)
  : M RDSInstance :=
  let node := super_node scope id props in
  register (NewConstruct scope (node_id node));;
  if takes_import_path props then
    lift (validateCDKPropWhenIsConstruct node props);;
    instance ← lift (importInstance props);
    mret {| this_node := node; this_id := id; this_cdk_instance := instance;
            this_props := props; this_secret := p_cdk props ≫= cdk_secret |}
  else
    lift (validateCDKPropWhenIsInstanceProps props);;
    instance ← createInstance node props;
    mret {| this_node := node; this_id := id; this_cdk_instance := instance;
            this_props := props; this_secret := di_secret instance |}.

(** *** Accessors *)

Definition secretArn (this : RDSInstance) : result string :=
  match this_secret this with
  | Some s => Ok (s_secretArn s)
  | None => Throw (type_error "secretArn")
  end.

Definition instanceArn (this : RDSInstance) : string :=
  di_instanceArn (this_cdk_instance this).

Definition instanceIdentifier (this : RDSInstance) : string :=
  di_instanceIdentifier (this_cdk_instance this).

Definition instanceEndpoint (this : RDSInstance) : string :=
  hostname (di_instanceEndpoint (this_cdk_instance this)).

Definition databaseName (this : RDSInstance) : string :=
  p_databaseName (this_props this).

Definition getConstructMetadata (this : RDSInstance) : result ConstructMetadata :=
  sArn ← secretArn this;
  mret {| md_type := "RDSInstance";
          md_engine := p_engine (this_props this);
          md_secretArn := sArn;
          md_instanceArn := instanceArn this;
          md_instanceIdentifier := instanceIdentifier this;
          md_databaseName := p_databaseName (this_props this) |}.

(** [this.secret.secretFullArn || `${this.secret.secretArn}*`] *)
Definition secret_resource (this : RDSInstance) : result string :=
  match this_secret this with
  | Some s => Ok (JS.or_else (s_secretFullArn s) (s_secretArn s +:+ "*"))
  | None => Throw (type_error "secretFullArn")
  end.

Definition plain (value : string) : BindingVariable :=
  {| var_type := "plain"; var_value := value |}.

Definition getFunctionBinding (this : RDSInstance) : result FunctionBindingProps :=
  let vInstanceArn := instanceArn this in
  vSecretArn ← secretArn this;
  let vDatabaseName := databaseName this in
  let pData := [instanceArn this] in
  pGet ← secret_resource this;
  pDescribe ← secret_resource this;
  mret {| clientPackage := "rds";
          variables :=
            <["databaseName" := plain vDatabaseName]>
              (<["secretArn" := plain vSecretArn]>
                 (<["instanceArn" := plain vInstanceArn]> ∅));
          permissions :=
            <["secretsmanager:DescribeSecret" := [pDescribe]]>
              (<["secretsmanager:GetSecretValue" := [pGet]]>
                 (<["rds-data:*" := pData]> ∅)) |}.

End Class.

(** ** Vocabulary of the properties *)

(** The three top-level fields that the override bag may not repeat, in the
    order the validation looks at them. *)
Inductive TopLevelField : Type :=
| F_engine
| F_vpc
| F_databaseName.

Definition field_name (f : TopLevelField) : string :=
  match f with
  | F_engine => "engine"
  | F_vpc => "vpc"
  | F_databaseName => "databaseName"
  end.

(** The bag holds a truthy value under the field. *)
Definition repeats (bag : RDSCdkDatabaseInstanceProps) (f : TopLevelField) : bool :=
  match f with
  | F_engine => JS.truthy (bag_engine bag)
  | F_vpc => JS.truthy (bag_vpc bag)
  | F_databaseName => JS.truthy_string (bag_databaseName bag)
  end.

Definition conflict_message (f : TopLevelField) : string :=
  match f with
  | F_engine => engine_conflict_message
  | F_vpc => vpc_conflict_message
  | F_databaseName => databaseName_conflict_message
  end.

(** The first repeated field, if any. *)
Definition first_conflict (bag : RDSCdkDatabaseInstanceProps) : option TopLevelField :=
  if repeats bag F_engine then Some F_engine
  else if repeats bag F_vpc then Some F_vpc
  else if repeats bag F_databaseName then Some F_databaseName
  else None.

(** A message names a field when it opens by telling the caller to use the
    top-level field instead of the field inside the bag. *)
Definition names_field (msg : string) (f : TopLevelField) : bool :=
  String.prefix
    ("Use " +:+ JS.quoted (field_name f) +:+ " instead of "
     +:+ JS.quoted ("cdk.instance." +:+ field_name f))
    msg.

(** A message reports the missing secret. *)
Definition reports_missing_secret (msg : string) : bool :=
  String.prefix ("Missing " +:+ JS.quoted "cdk.secret") msg.

(** The engine strings that [getEngine] resolves. *)
Definition supported_engines : list string := ["mysql5.7"; "postgresql11.13"].

(** The engine names that a message spells out, among candidate names. *)
Definition engines_listed (candidates : list string) (msg : string) : list string :=
  filter (λ name, JS.includes name msg = true) candidates.

(** What [getVpc] returns and what it registers. *)
Definition resolved_vpc `{Provisioning} (node : Node) (vpc : option IVpc) : IVpc :=
  match vpc with
  | Some v => v
  | None => ec2_Vpc (node_path node) "vpc" default_vpc_props
  end.

Definition network_registration (node : Node) (vpc : option IVpc) : World :=
  match vpc with
  | Some _ => []
  | None => [NewVpc (node_path node) "vpc" default_vpc_props]
  end.

(** The libraries give a created instance a secret unless its credentials
    carry none of their own making: with no credentials they generate one,
    and credentials built from a secret keep it. *)
Definition renders_secret (P : Provisioning) : Prop :=
  ∀ scope id p,
    match dp_credentials p with
    | None => True
    | Some c => is_Some (c_secret c)
    end →
    is_Some (di_secret (rds_DatabaseInstance scope id p)).

(** The resource pattern of the two secret permissions. *)
Definition secret_pattern (s : ISecret) : string :=
  match s_secretFullArn s with
  | Some full => if String.eqb full "" then s_secretArn s +:+ "*" else full
  | None => s_secretArn s +:+ "*"
  end.

(** ** A concrete provisioning environment, for examples *)

Module Demo.

Definition generated_secret : ISecret :=
  {| s_secretArn := "arn:aws:secretsmanager:us-east-1:1:secret:generated";
     s_secretFullArn := None |}.

Definition stage : Provisioning := {|
  logicalPrefixedName := λ name, "dev-sst-t3-example-" +:+ name;
  node_id_of := λ id, id;
  ec2_Vpc := λ scope id _, {| vpcId := "vpc-of-" +:+ id |};
  rds_DatabaseInstance := λ scope id p,
    {| di_instanceArn := "arn:aws:rds:us-east-1:1:db:" +:+ default "" (dp_instanceIdentifier p);
       di_instanceIdentifier := default "" (dp_instanceIdentifier p);
       di_instanceEndpoint := {| hostname := "db.internal" |};
       di_secret := match dp_credentials p with
                    | Some c => c_secret c
                    | None => Some generated_secret
                    end |};
  handle_as_props := λ _, empty_bag;
  props_as_handle := λ _,
    {| di_instanceArn := ""; di_instanceIdentifier := "";
       di_instanceEndpoint := {| hostname := "" |}; di_secret := None |};
|}.

Definition stack : Path := ["dev-sst-t3-example-Site"].

Definition net : IVpc := {| vpcId := "vpc-net" |}.

Definition imported_secret : ISecret :=
  {| s_secretArn := "arn:aws:secretsmanager:us-east-1:1:secret:my-secret";
     s_secretFullArn := Some "arn:aws:secretsmanager:us-east-1:1:secret:my-secret-AbCdEf" |}.

Definition existing : IDatabaseInstance :=
  {| di_instanceArn := "arn:aws:rds:us-east-1:1:db:my-instance";
     di_instanceIdentifier := "my-instance";
     di_instanceEndpoint := {| hostname := "my-instance.rds.internal" |};
     di_secret := None |}.

(** [{ databaseName: "db1", engine: "mysql5.7" }] *)
Definition db1 : RDSInstanceProps :=
  {| p_vpc := None; p_databaseName := "db1"; p_engine := "mysql5.7";
     p_cdk := None |}.

Definition with_bag (vpc : option IVpc) (engine : string)
    (bag : RDSCdkDatabaseInstanceProps) : RDSInstanceProps :=
  {| p_vpc := vpc; p_databaseName := "db1"; p_engine := engine;
     p_cdk := Some {| cdk_id := None; cdk_instance := Some (IsProps bag);
                      cdk_secret := None |} |}.

Definition importing (secret : option ISecret) : RDSInstanceProps :=
  {| p_vpc := None; p_databaseName := "db1"; p_engine := "mysql5.7";
     p_cdk := Some {| cdk_id := None; cdk_instance := Some (IsConstruct existing);
                      cdk_secret := secret |} |}.

(** The configuration of the stack script: the network of the stack, the
    engine "mysql5.7" and the prefixed name "db". *)
Definition site_db : RDSInstanceProps :=
  {| p_vpc := Some net; p_databaseName := "dev-sst-t3-example-db";
     p_engine := "mysql5.7"; p_cdk := None |}.

Definition public_subnets : SubnetSelection :=
  {| subnetType := Some PUBLIC; subnetGroupName := None |}.

(** [{ vpc: net, databaseName: "db2" }] as an override bag. *)
Definition repeating_bag : RDSCdkDatabaseInstanceProps :=
  {| bag_engine := None; bag_vpc := Some net; bag_databaseName := Some "db2";
     bag_credentials := None; bag_vpcSubnets := None;
     bag_instanceType := None; bag_instanceIdentifier := None;
     bag_allocatedStorage := None; bag_multiAz := None |}.

(** [{ vpcSubnets: { subnetType: PUBLIC } }] as an override bag. *)
Definition public_bag : RDSCdkDatabaseInstanceProps :=
  {| bag_engine := None; bag_vpc := None; bag_databaseName := None;
     bag_credentials := None; bag_vpcSubnets := Some public_subnets;
     bag_instanceType := None; bag_instanceIdentifier := None;
     bag_allocatedStorage := None; bag_multiAz := None |}.

(** [{ instanceType: InstanceType.of(MEMORY5, LARGE) }] as an override bag. *)
Definition large_bag : RDSCdkDatabaseInstanceProps :=
  {| bag_engine := None; bag_vpc := None; bag_databaseName := None;
     bag_credentials := None; bag_vpcSubnets := None;
     bag_instanceType := Some (InstanceType_of MEMORY5 LARGE);
     bag_instanceIdentifier := None;
     bag_allocatedStorage := None; bag_multiAz := None |}.

(** Credentials made from a user name and a password, and credentials made
    from a secret. *)
Definition password_credentials : Credentials :=
  {| c_username := "admin"; c_password := Some "hunter2"; c_secret := None |}.

Definition secret_credentials : Credentials :=
  {| c_username := "admin"; c_password := None; c_secret := Some imported_secret |}.

Definition credentials_bag (c : Credentials) : RDSCdkDatabaseInstanceProps :=
  {| bag_engine := None; bag_vpc := None; bag_databaseName := None;
     bag_credentials := Some c; bag_vpcSubnets := None;
     bag_instanceType := None; bag_instanceIdentifier := None;
     bag_allocatedStorage := None; bag_multiAz := None |}.

End Demo.

(** ** Vocabulary of the further properties *)

(** The credentials of a bag are absent or carry a secret. *)
Definition credentials_managed (bag : RDSCdkDatabaseInstanceProps) : bool :=
  match bag_credentials bag with
  | None => true
  | Some c => JS.truthy (c_secret c)
  end.

(** The engine string of a configuration, after the fallback of
    [createInstance], is one that [getEngine] resolves. *)
Definition engine_resolves (engine : string) : bool :=
  bool_decide (JS.or_else (Some engine) "mysql5.7" ∈ supported_engines).

(** The configurations the constructor accepts, read off the record: on the
    import path a secret comes with the handle; on the create-new path the
    bag repeats no top-level field, its credentials are managed and the
    engine resolves. *)
Definition accepts `{Provisioning} (props : RDSInstanceProps) : bool :=
  if takes_import_path props
  then JS.truthy (p_cdk props ≫= cdk_secret)
  else match first_conflict (instanceProps_of props) with
       | None => credentials_managed (instanceProps_of props)
                 && engine_resolves (p_engine props)
       | Some _ => false
       end.

(** The messages of the six [throw] statements of the class, for a wrapper
    whose node has the given id. *)
Definition configuration_errors (node_id : string) : list string :=
  [missing_secret_message node_id;
   engine_conflict_message;
   vpc_conflict_message;
   databaseName_conflict_message;
   credentials_message;
   unsupported_engine_message].

(** The scope a construct was registered under. *)
Definition scope_of (r : Registered) : Path :=
  match r with
  | NewConstruct scope _ => scope
  | NewVpc scope _ _ => scope
  | NewDatabaseInstance scope _ _ => scope
  end.

(** The id a construct was registered with. *)
Definition id_of (r : Registered) : string :=
  match r with
  | NewConstruct _ id => id
  | NewVpc _ id _ => id
  | NewDatabaseInstance _ id _ => id
  end.

(** ** The stack script

    [sst.config.ts] composes a network, a security group, the wrapper and a
    web site.  Its calls into the libraries are a log of their own, which
    embeds the log of the wrapper; what the libraries return is the
    interface [Libraries]. *)

Module Site.

Record SubnetConfiguration : Type := {
  cidrMask : nat;
  name : string;
  sc_subnetType : SubnetType;
}.

(** Properties of the network of the stack. *)
Record NetworkProps : Type := {
  net_natGateways : nat;
  net_ipAddresses : string;
  net_subnetConfiguration : list SubnetConfiguration;
}.

Record ISecurityGroup : Type := {
  securityGroupId : string;
}.

(** [cdk.server] of the site. *)
Record ServerProps : Type := {
  server_vpc : IVpc;
  server_allowAllOutbound : bool;
  server_securityGroups : list ISecurityGroup;
}.

Inductive Call : Type :=
| ByWrapper (r : Registered)
| NewNetwork (scope : Path) (id : string) (props : NetworkProps)
| NewSecurityGroup (scope : Path) (id : string) (vpc : IVpc) (description : string)
| SetDefaultFunctionProps (vpc : IVpc) (securityGroups : list ISecurityGroup)
| AllowFrom (instance : IDatabaseInstance) (peer : ISecurityGroup)
    (tcp_port : nat) (description : string)
| AddDefaultFunctionEnv (env : gmap string string)
| NewParameter (scope : Path) (id : string) (value : string)
| NewNextjsSite (scope : Path) (id : string) (environment : gmap string string)
    (server : ServerProps)
| AddOutputs (outputs : gmap string (option string)).

Class Libraries : Type := {
  (** The handle [new Vpc(scope, id, props)] evaluates to. *)
  stack_Vpc : Path -> string -> NetworkProps -> IVpc;
  (** The handle [new SecurityGroup(scope, id, { vpc, description })]
      evaluates to. *)
  ec2_SecurityGroup : Path -> string -> IVpc -> string -> ISecurityGroup;
  (** [secret.secretValueFromJson(key)], as a template literal prints it. *)
  secretValueFromJson : ISecret -> string -> string;
  (** [site.url] of [new NextjsSite(scope, id, ...)]. *)
  site_url : Path -> string -> option string;
}.

Definition Script (A : Type) : Type := list Call -> result A * list Call.

Global Instance Script_ret : MRet Script := λ A a log, (Ok a, log).

Global Instance Script_bind : MBind Script := λ A B k m log,
  match m log with
  | (Ok a, log') => k a log'
  | (Throw msg, log') => (Throw msg, log')
  end.

Definition call (c : Call) : Script unit := λ log, (Ok tt, log ++ [c]).

(** A constructor of the wrapper run from the script: what it registers
    joins the log of the script, and what it throws stops the script. *)
Definition by_wrapper {A : Type} (m : M A) : Script A := λ log,
  let '(r, w) := m [] in (r, log ++ (ByWrapper <$> w)).

(** A value inside a template literal: [undefined] prints as its name. *)
Definition interpolate (o : option string) : string := default "undefined" o.

(** [config(_input)] *)
Record AppConfig : Type := {
  app_name : string;
  app_region : string;
}.

Definition config : AppConfig :=
  {| app_name := "sst-t3-example"; app_region := "us-east-1" |}.

Definition network_props : NetworkProps :=
  {| net_natGateways := 1;
     net_ipAddresses := "172.32.0.0/16";
     net_subnetConfiguration :=
       [ {| cidrMask := 24; name := "public"; sc_subnetType := PUBLIC |};
         {| cidrMask := 24; name := "private"; sc_subnetType := PRIVATE_WITH_EGRESS |};
         {| cidrMask := 24; name := "database"; sc_subnetType := PRIVATE_ISOLATED |} ] |}.

(** The template literal of the connection string. *)
Definition database_url (user pass : option string) (host databaseName : string)
  : string :=
  "mysql://" +:+ interpolate user +:+ ":" +:+ interpolate pass +:+ "@" +:+ host
  +:+ "/" +:+ databaseName +:+ "?connection_limit=5".

Section Script.
Context `{Provisioning} `{Libraries}.

(** The configuration the script gives the wrapper. *)
Definition database_props (vpc : IVpc) : RDSInstanceProps :=
  {| p_vpc := Some vpc; p_engine := "mysql5.7";
     p_databaseName := logicalPrefixedName "db"; p_cdk := None |}.

(** The body of [app.stack(function Site({ stack }) { ... })], with the
    environment of the process as an argument. *)
Definition Site (stack : Path) (process_env : gmap string string) : Script unit :=
  let net_id := logicalPrefixedName "net" in
  call (NewNetwork stack net_id network_props);;
  let vpc := stack_Vpc stack net_id network_props in
  let sg_id := logicalPrefixedName "lambda-sg" in
  let sg_description := "Allow lambda functions to access the database" in
  call (NewSecurityGroup stack sg_id vpc sg_description);;
  let lambdaSecurityGroup := ec2_SecurityGroup stack sg_id vpc sg_description in
  call (SetDefaultFunctionProps vpc [lambdaSecurityGroup]);;
  let databaseName := logicalPrefixedName "db" in
  rds ← by_wrapper (new_RDSInstance stack "db" (database_props vpc));
  let instance := this_cdk_instance rds in
  call (AllowFrom instance lambdaSecurityGroup 3306
          "Allow access from lambda to Aurora DB");;
  let user := (λ s, secretValueFromJson s "username") <$> di_secret instance in
  let pass := (λ s, secretValueFromJson s "password") <$> di_secret instance in
  let url := database_url user pass (hostname (di_instanceEndpoint instance))
               databaseName in
  call (AddDefaultFunctionEnv (<["DATABASE_URL" := url]> ∅));;
  call (NewParameter stack "DATABASE_URL" url);;
  call (NewNextjsSite stack "site" (<["DATABASE_URL" := url]> process_env)
          {| server_vpc := vpc; server_allowAllOutbound := true;
             server_securityGroups := [lambdaSecurityGroup] |});;
  call (AddOutputs (<["SiteUrl" := site_url stack "site"]> ∅)).

End Script.

(** What the wrapper registered, among the calls of the script. *)
Definition wrapper_calls (log : list Call) : World :=
  omap (λ c, match c with ByWrapper r => Some r | _ => None end) log.

(** The connection strings handed out, in call order: to the default
    function environment, to parameters, and to sites. *)
Definition urls_handed_out (log : list Call) : list (option string) :=
  omap (λ c, match c with
             | AddDefaultFunctionEnv env => Some (env !! "DATABASE_URL")
             | NewParameter _ _ value => Some (Some value)
             | NewNextjsSite _ _ environment _ => Some (environment !! "DATABASE_URL")
             | _ => None
             end) log.

(** The security groups let into a database, with the port. *)
Definition ingress_rules (log : list Call)
  : list (IDatabaseInstance * ISecurityGroup * nat) :=
  omap (λ c, match c with
             | AllowFrom instance peer port _ => Some (instance, peer, port)
             | _ => None
             end) log.

(** The networks that the compute side of the stack is put in: the default
    function properties and the servers of the sites, with their security
    groups. *)
Definition compute_placements (log : list Call)
  : list (IVpc * list ISecurityGroup) :=
  omap (λ c, match c with
             | SetDefaultFunctionProps vpc groups => Some (vpc, groups)
             | NewNextjsSite _ _ _ server =>
                 Some (server_vpc server, server_securityGroups server)
             | _ => None
             end) log.

(** The environments given to sites. *)
Definition site_environments (log : list Call) : list (gmap string string) :=
  omap (λ c, match c with
             | NewNextjsSite _ _ environment _ => Some environment
             | _ => None
             end) log.

End Site.

(** ** Further sample configurations *)

Module Sample.

(** [{ databaseName: "db1", engine: "mysql5.7", cdk: { id: "Database" } }] *)
Definition named : RDSInstanceProps :=
  {| p_vpc := None; p_databaseName := "db1"; p_engine := "mysql5.7";
     p_cdk := Some {| cdk_id := Some "Database"; cdk_instance := None;
                      cdk_secret := None |} |}.

(** [{ instanceIdentifier: "my-instance", databaseName: "", multiAz: true }]
    as an override bag, with credentials made from a secret. *)
Definition identified_bag : RDSCdkDatabaseInstanceProps :=
  {| bag_engine := None; bag_vpc := None; bag_databaseName := Some "";
     bag_credentials := Some Demo.secret_credentials; bag_vpcSubnets := None;
     bag_instanceType := None; bag_instanceIdentifier := Some (Some "my-instance");
     bag_allocatedStorage := Some 20; bag_multiAz := Some true |}.

(** [{ instanceIdentifier: undefined }] as an override bag. *)
Definition blank_identifier_bag : RDSCdkDatabaseInstanceProps :=
  {| bag_engine := None; bag_vpc := None; bag_databaseName := None;
     bag_credentials := None; bag_vpcSubnets := None;
     bag_instanceType := None; bag_instanceIdentifier := Some None;
     bag_allocatedStorage := None; bag_multiAz := None |}.

(** A configuration with an engine the class does not know and no network. *)
Definition oracle : RDSInstanceProps :=
  {| p_vpc := None; p_databaseName := "db1"; p_engine := "oracle19";
     p_cdk := None |}.

(** A configuration with an empty engine string. *)
Definition no_engine : RDSInstanceProps :=
  {| p_vpc := Some Demo.net; p_databaseName := "db1"; p_engine := "";
     p_cdk := None |}.

End Sample.

(** ** Construction when the libraries throw

    The constructors of the libraries check what they are given, and throw
    when a check fails.  [Faults] says which of their calls throw, and with
    which message; a call without a fault returns what [Provisioning] says.

    - The base constructor [super(scope, id)] checks the id (it may be
      empty, or taken under the scope) before the node joins the tree.
    - [new ec2.Vpc] and [new rds.DatabaseInstance] are constructs: their own
      node joins the tree, under the fresh node of the wrapper, before their
      own checks run (for the instance, that the network has subnets of the
      selected type). *)

Module Fallible.

Class Faults : Type := {
  super_fault : Path -> string -> option string;
  vpc_fault : Path -> string -> VpcProps -> option string;
  instance_fault : Path -> string -> DatabaseInstanceProps -> option string;
}.

Definition no_faults : Faults :=
  {| super_fault := λ _ _, None;
     vpc_fault := λ _ _ _, None;
     instance_fault := λ _ _ _, None |}.

(** The check of a library constructor: throws when there is a fault. *)
Definition check (fault : option string) : M unit := λ w,
  (match fault with
   | Some msg => Throw msg
   | None => Ok tt
   end, w).

Definition no_fault (fault : option string) : bool :=
  match fault with
  | Some _ => false
  | None => true
  end.

Section Class.
Context `{Provisioning} `{Faults}.

Definition getVpc (node : Node) (vpc : option IVpc) : M IVpc :=
  match vpc with
  | Some v => mret v
  | None =>
      register (NewVpc (node_path node) "vpc" default_vpc_props);;
      check (vpc_fault (node_path node) "vpc" default_vpc_props);;
      mret (ec2_Vpc (node_path node) "vpc" default_vpc_props)
  end.

Definition createInstance (node : Node) (this_props : RDSInstanceProps)
  : M IDatabaseInstance :=
  let instanceProps := instanceProps_of this_props in
  engine ← lift (getEngine (JS.or_else (Some (p_engine this_props)) "mysql5.7"));
  vpc ← getVpc node (p_vpc this_props);
  let literal := instance_literal node this_props instanceProps engine vpc in
  register (NewDatabaseInstance (node_path node) "DB" literal);;
  check (instance_fault (node_path node) "DB" literal);;
  mret (rds_DatabaseInstance (node_path node) "DB" literal).

(** [new RDSInstance(scope, id, props)] *)
Definition new_RDSInstance (scope : Path) (id : string) (props : RDSInstanceProps)
  : M RDSInstance :=
  let node := super_node scope id props in
  check (super_fault scope (JS.or_else (p_cdk props ≫= cdk_id) id));;
  register (NewConstruct scope (node_id node));;
  if takes_import_path props then
    lift (validateCDKPropWhenIsConstruct node props);;
    instance ← lift (importInstance props);
    mret {| this_node := node; this_id := id; this_cdk_instance := instance;
            this_props := props; this_secret := p_cdk props ≫= cdk_secret |}
  else
    lift (validateCDKPropWhenIsInstanceProps props);;
    instance ← createInstance node props;
    mret {| this_node := node; this_id := id; this_cdk_instance := instance;
            this_props := props; this_secret := di_secret instance |}.

(** The instance literal of an accepted create-new configuration. *)
Definition literal_of (scope : Path) (id : string) (props : RDSInstanceProps)
  : option DatabaseInstanceProps :=
  match getEngine (JS.or_else (Some (p_engine props)) "mysql5.7") with
  | Ok engine =>
      Some (instance_literal (super_node scope id props) props
              (instanceProps_of props) engine
              (resolved_vpc (super_node scope id props) (p_vpc props)))
  | Throw _ => None
  end.

(** The network constructor, when the wrapper calls it, returns. *)
Definition network_returns (scope : Path) (id : string) (props : RDSInstanceProps)
  : bool :=
  match p_vpc props with
  | Some _ => true
  | None => no_fault (vpc_fault (node_path (super_node scope id props)) "vpc"
                        default_vpc_props)
  end.

(** Every library constructor that the wrapper calls for the configuration
    returns: the base constructor, and on the create-new path the network
    constructor, when no network is given, and the instance constructor. *)
Definition libraries_return (scope : Path) (id : string) (props : RDSInstanceProps)
  : bool :=
  no_fault (super_fault scope (JS.or_else (p_cdk props ≫= cdk_id) id))
  && (takes_import_path props
      || match literal_of scope id props with
         | Some literal =>
             network_returns scope id props
             && no_fault (instance_fault (node_path (super_node scope id props))
                            "DB" literal)
         | None => true
         end).

End Class.

End Fallible.

(** Libraries that reject an empty id, and an instance whose network is
    not one they made themselves (it has no isolated subnets). *)
Module Strict.

Definition faults : Fallible.Faults :=
  {| Fallible.super_fault := λ _ id,
       if String.eqb id ""
       then Some "Only root constructs may have an empty ID"
       else None;
     Fallible.vpc_fault := λ _ _ _, None;
     Fallible.instance_fault := λ _ _ p,
       if String.eqb (vpcId (dp_vpc p)) "vpc-of-vpc"
       then None
       else Some "There are no 'Isolated' subnet groups in this VPC" |}.

End Strict.

(** ** Running the constructor *)

Arguments JS.or_else : simpl never.
Arguments getEngine : simpl never.
Arguments validateCDKPropWhenIsInstanceProps : simpl never.
Arguments super_node : simpl never.

Ltac run :=
  unfold mbind, mret, M_bind, M_ret, result_bind, result_ret,
    lift, register; simpl.

Section Facts.
Context `{P : Provisioning}.
Implicit Types (props : RDSInstanceProps) (bag : RDSCdkDatabaseInstanceProps).
Implicit Types (w : World) (scope : Path) (id : string).

(** The bag of a configuration that gives [cdk.instance] as a bag. *)
Lemma instanceProps_of_bag props bag :
  p_cdk props ≫= cdk_instance = Some (IsProps bag) →
  instanceProps_of props = bag.
Proof. unfold instanceProps_of. by intros ->. Qed.

Lemma bag_takes_create_path props bag :
  p_cdk props ≫= cdk_instance = Some (IsProps bag) →
  takes_import_path props = false.
Proof.
  unfold takes_import_path. destruct (p_cdk props) as [c|]; simpl; [|done].
  by intros ->.
Qed.

Lemma handle_takes_import_path props handle :
  p_cdk props ≫= cdk_instance = Some (IsConstruct handle) →
  takes_import_path props = true.
Proof.
  unfold takes_import_path. destruct (p_cdk props) as [c|]; simpl; [|done].
  by intros ->.
Qed.

Lemma getVpc_run node vpc w :
  getVpc node vpc w = (Ok (resolved_vpc node vpc), w ++ network_registration node vpc).
Proof.
  destruct vpc as [v|]; run; [|done].
  by rewrite app_nil_r.
Qed.

(** The validation, read off the first repeated field. *)
Lemma validate_conflict props f :
  first_conflict (instanceProps_of props) = Some f →
  validateCDKPropWhenIsInstanceProps props = Throw (conflict_message f).
Proof.
  unfold first_conflict, validateCDKPropWhenIsInstanceProps, repeats.
  destruct (JS.truthy (bag_engine _)); [by intros [= <-]|].
  destruct (JS.truthy (bag_vpc _)); [by intros [= <-]|].
  destruct (JS.truthy_string (bag_databaseName _)); [by intros [= <-]|].
  done.
Qed.

Lemma validate_no_conflict props :
  first_conflict (instanceProps_of props) = None →
  validateCDKPropWhenIsInstanceProps props =
    if JS.truthy (bag_credentials (instanceProps_of props))
       && negb (JS.truthy (bag_credentials (instanceProps_of props) ≫= c_secret))
    then Throw credentials_message
    else Ok (instanceProps_of props).
Proof.
  unfold first_conflict, validateCDKPropWhenIsInstanceProps, repeats.
  destruct (JS.truthy (bag_engine _)); [done|].
  destruct (JS.truthy (bag_vpc _)); [done|].
  destruct (JS.truthy_string (bag_databaseName _)); done.
Qed.

(** A bag that passes validation is the bag of the configuration, repeats
    no top-level field, and has credentials only with a secret. *)
Lemma validate_ok_inv props bag :
  validateCDKPropWhenIsInstanceProps props = Ok bag →
  bag = instanceProps_of props
  ∧ bag_engine bag = None
  ∧ bag_vpc bag = None
  ∧ JS.truthy_string (bag_databaseName bag) = false
  ∧ match bag_credentials bag with
    | None => True
    | Some c => is_Some (c_secret c)
    end.
Proof.
  unfold validateCDKPropWhenIsInstanceProps.
  destruct (bag_engine _) eqn:He; simpl; [done|].
  destruct (bag_vpc _) eqn:Hv; simpl; [done|].
  destruct (JS.truthy_string (bag_databaseName _)) eqn:Hd; [done|].
  destruct (bag_credentials _) as [c|] eqn:Hc; simpl.
  - destruct (c_secret c) eqn:Hs; simpl; [|done].
    intros [= <-]. rewrite Hc, Hs. eauto.
  - intros [= <-]. by rewrite Hc.
Qed.

Lemma first_conflict_repeats bag f :
  first_conflict bag = Some f → repeats bag f = true.
Proof.
  unfold first_conflict.
  destruct (repeats bag F_engine) eqn:?; [by intros [= <-]|].
  destruct (repeats bag F_vpc) eqn:?; [by intros [= <-]|].
  destruct (repeats bag F_databaseName) eqn:?; [by intros [= <-]|done].
Qed.

Lemma repeats_first_conflict bag f :
  repeats bag f = true → is_Some (first_conflict bag).
Proof.
  unfold first_conflict. intros Hf.
  destruct (repeats bag F_engine) eqn:?; [eauto|].
  destruct (repeats bag F_vpc) eqn:?; [eauto|].
  destruct (repeats bag F_databaseName) eqn:?; [eauto|].
  destruct f; congruence.
Qed.

(** *** The three ways through the create-new path *)

Lemma create_path_rejected scope id props w msg :
  takes_import_path props = false →
  validateCDKPropWhenIsInstanceProps props = Throw msg →
  new_RDSInstance scope id props w =
    (Throw msg, w ++ [NewConstruct scope (node_id (super_node scope id props))]).
Proof.
  intros Hpath Hval. unfold new_RDSInstance. rewrite Hpath. run.
  by rewrite Hval.
Qed.

Lemma create_path_engine_rejected scope id props w bag msg :
  takes_import_path props = false →
  validateCDKPropWhenIsInstanceProps props = Ok bag →
  getEngine (JS.or_else (Some (p_engine props)) "mysql5.7") = Throw msg →
  new_RDSInstance scope id props w =
    (Throw msg, w ++ [NewConstruct scope (node_id (super_node scope id props))]).
Proof.
  intros Hpath Hval Heng. unfold new_RDSInstance. rewrite Hpath. run.
  rewrite Hval. unfold createInstance. run. by rewrite Heng.
Qed.

Lemma create_path_ok scope id props w bag engine :
  takes_import_path props = false →
  validateCDKPropWhenIsInstanceProps props = Ok bag →
  getEngine (JS.or_else (Some (p_engine props)) "mysql5.7") = Ok engine →
  let node := super_node scope id props in
  let literal :=
    instance_literal node props bag engine (resolved_vpc node (p_vpc props)) in
  let instance := rds_DatabaseInstance (node_path node) "DB" literal in
  new_RDSInstance scope id props w =
    (Ok {| this_node := node; this_id := id; this_cdk_instance := instance;
           this_props := props; this_secret := di_secret instance |},
     w ++ [NewConstruct scope (node_id node)]
       ++ network_registration node (p_vpc props)
       ++ [NewDatabaseInstance (node_path node) "DB" literal]).
Proof.
  intros Hpath Hval Heng node literal instance.
  destruct (validate_ok_inv _ _ Hval) as (-> & _).
  unfold new_RDSInstance. rewrite Hpath. run.
  rewrite Hval. unfold createInstance. run. rewrite Heng.
  rewrite getVpc_run. by rewrite <- !app_assoc.
Qed.

(** *** The import path *)

Lemma import_path_run scope id props w cdk handle :
  p_cdk props = Some cdk →
  cdk_instance cdk = Some (IsConstruct handle) →
  let node := super_node scope id props in
  new_RDSInstance scope id props w =
    (match cdk_secret cdk with
     | None => Throw (missing_secret_message (node_id node))
     | Some s =>
         Ok {| this_node := node; this_id := id; this_cdk_instance := handle;
               this_props := props; this_secret := Some s |}
     end,
     w ++ [NewConstruct scope (node_id node)]).
Proof.
  intros Hcdk Hinst node. subst node.
  destruct props as [vpc name engine cdk']. simpl in Hcdk. subst cdk'.
  unfold new_RDSInstance, takes_import_path, validateCDKPropWhenIsConstruct,
    importInstance.
  simpl. rewrite Hinst. run. by destruct (cdk_secret cdk).
Qed.

(** Every failure leaves the log as the superclass constructor left it:
    nothing is registered after the node of the wrapper itself. *)
Lemma failure_registers_nothing scope id props w msg w' :
  new_RDSInstance scope id props w = (Throw msg, w') →
  w' = w ++ [NewConstruct scope (node_id (super_node scope id props))].
Proof.
  destruct (takes_import_path props) eqn:Hpath.
  - unfold takes_import_path in Hpath.
    destruct (p_cdk props) as [cdk|] eqn:Hcdk; [|done].
    destruct (cdk_instance cdk) as [[handle|bag]|] eqn:Hinst; try done.
    rewrite (import_path_run _ _ _ _ _ _ Hcdk Hinst).
    destruct (cdk_secret cdk); by intros [= <-].
  - destruct (validateCDKPropWhenIsInstanceProps props) as [bag|m] eqn:Hval.
    + destruct (getEngine (JS.or_else (Some (p_engine props)) "mysql5.7"))
        as [e|m] eqn:Heng.
      * by rewrite (create_path_ok _ _ _ _ _ _ Hpath Hval Heng).
      * rewrite (create_path_engine_rejected _ _ _ _ _ _ Hpath Hval Heng).
        by intros [= <-].
    + rewrite (create_path_rejected _ _ _ _ _ Hpath Hval). by intros [= <-].
Qed.

End Facts.

Lemma instances_of_app (w1 w2 : World) :
  instances_of (w1 ++ w2) = instances_of w1 ++ instances_of w2.
Proof. unfold instances_of. apply omap_app. Qed.

Lemma networks_of_app (w1 w2 : World) :
  networks_of (w1 ++ w2) = networks_of w1 ++ networks_of w2.
Proof. unfold networks_of. apply omap_app. Qed.

(** ** Validation *)

Section Validation.
Context `{P : Provisioning}.
Implicit Types (props : RDSInstanceProps) (bag : RDSCdkDatabaseInstanceProps).
Implicit Types (w : World) (scope : Path) (id : string).

(** C1.  A configuration that gives [cdk.instance] as a property bag
    holding a truthy [engine], [vpc] or [databaseName] is not constructed:
    the constructor throws the message of the first such field in that
    order, which is the given field when it is the only one; the message
    tells the caller to use the top-level field instead of the one in the
    bag; and the log gains the node of the wrapper and nothing else, so no
    database instance and no network. *)
Theorem bag_repeating_top_level_field_rejected scope id props w bag f :
  p_cdk props ≫= cdk_instance = Some (IsProps bag) →
  repeats bag f = true →
  ∃ g,
    first_conflict bag = Some g
    ∧ repeats bag g = true
    ∧ ((∀ f', repeats bag f' = true → f' = f) → g = f)
    ∧ names_field (conflict_message g) g = true
    ∧ new_RDSInstance scope id props w =
        (Throw (conflict_message g),
         w ++ [NewConstruct scope (node_id (super_node scope id props))])
    ∧ instances_of (new_RDSInstance scope id props w).2 = instances_of w
    ∧ networks_of (new_RDSInstance scope id props w).2 = networks_of w.
Proof.
  intros Hbag Hf.
  destruct (repeats_first_conflict _ _ Hf) as [g Hg].
  pose proof (first_conflict_repeats _ _ Hg) as Hrep.
  assert (Hrun : new_RDSInstance scope id props w =
    (Throw (conflict_message g),
     w ++ [NewConstruct scope (node_id (super_node scope id props))])).
  { apply create_path_rejected; [by eapply bag_takes_create_path|].
    apply validate_conflict. by rewrite (instanceProps_of_bag _ _ Hbag). }
  exists g. repeat split; try done.
  - intros Honly. by apply Honly.
  - by destruct g.
  - rewrite Hrun. simpl. rewrite instances_of_app. simpl. by rewrite app_nil_r.
  - rewrite Hrun. simpl. rewrite networks_of_app. simpl. by rewrite app_nil_r.
Qed.

(** C2.  When [cdk.instance] is an existing database handle, the
    constructor throws the missing-secret error if [cdk.secret] is absent;
    if it is present the wrapper holds the very handle and the very secret
    that were supplied, and nothing but the node of the wrapper is
    registered. *)
Theorem import_path_requires_secret scope id props w cdk handle :
  p_cdk props = Some cdk →
  cdk_instance cdk = Some (IsConstruct handle) →
  (cdk_secret cdk = None →
     ∃ msg,
       new_RDSInstance scope id props w =
         (Throw msg, w ++ [NewConstruct scope (node_id (super_node scope id props))])
       ∧ msg = missing_secret_message (node_id (super_node scope id props))
       ∧ reports_missing_secret msg = true)
  ∧ (∀ s, cdk_secret cdk = Some s →
       ∃ this,
         new_RDSInstance scope id props w =
           (Ok this, w ++ [NewConstruct scope (node_id (super_node scope id props))])
         ∧ this_cdk_instance this = handle
         ∧ this_secret this = Some s
         ∧ this_props this = props).
Proof.
  intros Hcdk Hinst.
  pose proof (import_path_run scope id props w cdk handle Hcdk Hinst) as Hrun.
  simpl in Hrun. split.
  - intros Hnone. rewrite Hnone in Hrun. eexists. split; [exact Hrun|].
    split; [done|]. reflexivity.
  - intros s Hsome. rewrite Hsome in Hrun. eexists. split; [exact Hrun|done].
Qed.

(** C3.  [getEngine] resolves "mysql5.7" to the MySQL engine at version
    5.7 and "postgresql11.13" to the PostgreSQL engine at version 11.13,
    and throws for every other string. *)
Theorem getEngine_resolution (engine : string) :
  (engine = "mysql5.7" →
     getEngine engine = Ok (mysql MysqlEngineVersion.VER_5_7))
  ∧ (engine = "postgresql11.13" →
     getEngine engine = Ok (postgres PostgresEngineVersion.VER_11_13))
  ∧ (engine ≠ "mysql5.7" → engine ≠ "postgresql11.13" →
     getEngine engine = Throw unsupported_engine_message).
Proof.
  unfold getEngine. repeat split.
  - by intros ->.
  - by intros ->.
  - intros H1 H2.
    apply String.eqb_neq in H1. apply String.eqb_neq in H2.
    by rewrite H1, H2.
Qed.

End Validation.

Lemma bag_repeating_top_level_field_rejected_witness :
  p_cdk (Demo.with_bag None "mysql5.7" Demo.repeating_bag) ≫= cdk_instance
    = Some (IsProps Demo.repeating_bag)
  ∧ repeats Demo.repeating_bag F_databaseName = true
  ∧ ∃ g,
      first_conflict Demo.repeating_bag = Some g
      ∧ repeats Demo.repeating_bag g = true
      ∧ ((∀ f', repeats Demo.repeating_bag f' = true → f' = F_databaseName)
         → g = F_databaseName)
      ∧ names_field (conflict_message g) g = true
      ∧ new_RDSInstance (H:=Demo.stage) Demo.stack "db"
          (Demo.with_bag None "mysql5.7" Demo.repeating_bag) [] =
          (Throw (conflict_message g),
           [] ++ [NewConstruct Demo.stack
                    (node_id (super_node (H:=Demo.stage) Demo.stack "db"
                       (Demo.with_bag None "mysql5.7" Demo.repeating_bag)))])
      ∧ instances_of (new_RDSInstance (H:=Demo.stage) Demo.stack "db"
          (Demo.with_bag None "mysql5.7" Demo.repeating_bag) []).2 = instances_of []
      ∧ networks_of (new_RDSInstance (H:=Demo.stage) Demo.stack "db"
          (Demo.with_bag None "mysql5.7" Demo.repeating_bag) []).2 = networks_of [].
Proof.
  split; [reflexivity|]. split; [reflexivity|].
  apply (bag_repeating_top_level_field_rejected (P:=Demo.stage)
           Demo.stack "db" (Demo.with_bag None "mysql5.7" Demo.repeating_bag) []
           Demo.repeating_bag F_databaseName); reflexivity.
Defined.

Lemma import_path_requires_secret_witness :
  p_cdk (Demo.importing (Some Demo.imported_secret))
    = Some {| cdk_id := None; cdk_instance := Some (IsConstruct Demo.existing);
              cdk_secret := Some Demo.imported_secret |}
  ∧ ∃ this,
      new_RDSInstance (H:=Demo.stage) Demo.stack "db"
        (Demo.importing (Some Demo.imported_secret)) [] =
        (Ok this, [NewConstruct Demo.stack "db"])
      ∧ this_cdk_instance this = Demo.existing
      ∧ this_secret this = Some Demo.imported_secret
      ∧ this_props this = Demo.importing (Some Demo.imported_secret).
Proof.
  split; [reflexivity|].
  apply (import_path_requires_secret (P:=Demo.stage) Demo.stack "db"
           (Demo.importing (Some Demo.imported_secret)) [] _ Demo.existing
           eq_refl eq_refl).
  reflexivity.
Defined.

Lemma getEngine_resolution_witness :
  getEngine "mysql5.7" = Ok (mysql MysqlEngineVersion.VER_5_7)
  ∧ getEngine "postgresql11.13" = Ok (postgres PostgresEngineVersion.VER_11_13)
  ∧ getEngine "postgresql10.14" = Throw unsupported_engine_message.
Proof.
  split; [by apply (getEngine_resolution "mysql5.7")|].
  split; [by apply (getEngine_resolution "postgresql11.13")|].
  by apply (getEngine_resolution "postgresql10.14").
Defined.

(** ** Defaults of the create-new path *)

Section Defaults.
Context `{P : Provisioning}.
Implicit Types (props : RDSInstanceProps) (bag : RDSCdkDatabaseInstanceProps).
Implicit Types (w : World) (scope : Path) (id : string).

(** [getVpcSubnets] looks for the network inside the bag. *)
Lemma getVpcSubnets_without_bag_vpc bag :
  bag_vpc bag = None → getVpcSubnets bag = Some isolated_subnets.
Proof. unfold getVpcSubnets. by intros ->. Qed.

Lemma getVpcSubnets_with_bag_vpc bag v :
  bag_vpc bag = Some v → getVpcSubnets bag = bag_vpcSubnets bag.
Proof. unfold getVpcSubnets. by intros ->. Qed.

(** A validated bag holds no network, so the branch of [getVpcSubnets]
    that returns the selection of the caller is never taken from
    [createInstance]. *)
Lemma validated_bag_subnets props bag :
  validateCDKPropWhenIsInstanceProps props = Ok bag →
  getVpcSubnets bag = Some isolated_subnets.
Proof.
  intros Hval. destruct (validate_ok_inv _ _ Hval) as (_ & _ & Hvpc & _).
  by apply getVpcSubnets_without_bag_vpc.
Qed.

Lemma getInstanceType_default bag :
  bag_instanceType bag = None →
  getInstanceType bag = Some (InstanceType_of BURSTABLE3 SMALL).
Proof. unfold getInstanceType. by intros ->. Qed.

Lemma getInstanceType_override bag t :
  bag_instanceType bag = Some t → getInstanceType bag = Some t.
Proof. unfold getInstanceType. by intros ->. Qed.

(** C4.  What the code does with the subnet selection of the caller: on
    the create-new path, whenever validation passes and the engine
    resolves, the instance is created with the isolated-private selection,
    whether or not the caller gave a network and whatever [vpcSubnets] the
    bag holds. *)
Theorem created_instance_subnets_always_isolated scope id props w bag engine :
  takes_import_path props = false →
  validateCDKPropWhenIsInstanceProps props = Ok bag →
  getEngine (JS.or_else (Some (p_engine props)) "mysql5.7") = Ok engine →
  ∃ this literal,
    new_RDSInstance scope id props w =
      (Ok this,
       w ++ [NewConstruct scope (node_id (super_node scope id props))]
         ++ network_registration (super_node scope id props) (p_vpc props)
         ++ [NewDatabaseInstance (node_path (super_node scope id props)) "DB" literal])
    ∧ dp_vpc literal = resolved_vpc (super_node scope id props) (p_vpc props)
    ∧ dp_vpcSubnets literal = Some isolated_subnets.
Proof.
  intros Hpath Hval Heng.
  pose proof (create_path_ok scope id props w bag engine Hpath Hval Heng) as Hrun.
  simpl in Hrun. eexists _, _. split; [exact Hrun|]. split; [done|].
  simpl. by eapply validated_bag_subnets.
Qed.

(** C6.  On the create-new path, once validation passes and the engine
    resolves: with no network from the caller the wrapper registers a
    network with zero NAT gateways under itself, creates the instance in
    that network and selects the isolated-private subnets; a network from
    the caller is passed on as it is and none is registered. *)
Theorem network_default scope id props w bag engine :
  takes_import_path props = false →
  validateCDKPropWhenIsInstanceProps props = Ok bag →
  getEngine (JS.or_else (Some (p_engine props)) "mysql5.7") = Ok engine →
  let node := super_node scope id props in
  (p_vpc props = None →
     ∃ this literal,
       new_RDSInstance scope id props w =
         (Ok this,
          w ++ [NewConstruct scope (node_id node);
                NewVpc (node_path node) "vpc" {| natGateways := Some 0 |};
                NewDatabaseInstance (node_path node) "DB" literal])
       ∧ dp_vpc literal = ec2_Vpc (node_path node) "vpc" {| natGateways := Some 0 |}
       ∧ dp_vpcSubnets literal =
           Some {| subnetType := Some PRIVATE_ISOLATED; subnetGroupName := None |})
  ∧ (∀ v, p_vpc props = Some v →
       ∃ this literal,
         new_RDSInstance scope id props w =
           (Ok this,
            w ++ [NewConstruct scope (node_id node);
                  NewDatabaseInstance (node_path node) "DB" literal])
         ∧ dp_vpc literal = v).
Proof.
  intros Hpath Hval Heng node.
  pose proof (create_path_ok scope id props w bag engine Hpath Hval Heng) as Hrun.
  simpl in Hrun. fold node in Hrun. split.
  - intros Hvpc. rewrite Hvpc in Hrun. eexists _, _.
    split; [exact Hrun|]. split; [done|].
    simpl. by eapply validated_bag_subnets.
  - intros v Hvpc. rewrite Hvpc in Hrun. eexists _, _.
    split; [exact Hrun|done].
Qed.

(** C7.  On the create-new path, once validation passes and the engine
    resolves: with no [instanceType] in the bag the instance is created
    with the burstable class 3 at size small; an [instanceType] in the bag
    is passed on as it is. *)
Theorem instance_type_default scope id props w bag engine :
  takes_import_path props = false →
  validateCDKPropWhenIsInstanceProps props = Ok bag →
  getEngine (JS.or_else (Some (p_engine props)) "mysql5.7") = Ok engine →
  ∃ this literal,
    new_RDSInstance scope id props w =
      (Ok this,
       w ++ [NewConstruct scope (node_id (super_node scope id props))]
         ++ network_registration (super_node scope id props) (p_vpc props)
         ++ [NewDatabaseInstance (node_path (super_node scope id props)) "DB" literal])
    ∧ (bag_instanceType (instanceProps_of props) = None →
         dp_instanceType literal =
           Some {| instanceClass := BURSTABLE3; instanceSize := SMALL |})
    ∧ (∀ t, bag_instanceType (instanceProps_of props) = Some t →
         dp_instanceType literal = Some t).
Proof.
  intros Hpath Hval Heng.
  pose proof (create_path_ok scope id props w bag engine Hpath Hval Heng) as Hrun.
  destruct (validate_ok_inv _ _ Hval) as (-> & _).
  simpl in Hrun. eexists _, _. split; [exact Hrun|]. simpl. split.
  - apply getInstanceType_default.
  - apply getInstanceType_override.
Qed.

End Defaults.

Lemma created_instance_subnets_always_isolated_witness :
  p_vpc (Demo.with_bag (Some Demo.net) "mysql5.7" Demo.public_bag) = Some Demo.net
  ∧ bag_vpcSubnets
      (instanceProps_of (H:=Demo.stage)
         (Demo.with_bag (Some Demo.net) "mysql5.7" Demo.public_bag))
    = Some Demo.public_subnets
  ∧ ∃ this literal,
      new_RDSInstance (H:=Demo.stage) Demo.stack "db"
        (Demo.with_bag (Some Demo.net) "mysql5.7" Demo.public_bag) [] =
        (Ok this,
         [NewConstruct Demo.stack "db";
          NewDatabaseInstance (Demo.stack ++ ["db"]) "DB" literal])
      ∧ dp_vpc literal = Demo.net
      ∧ dp_vpcSubnets literal = Some isolated_subnets.
Proof.
  split; [reflexivity|]. split; [reflexivity|].
  apply (created_instance_subnets_always_isolated (P:=Demo.stage)
           Demo.stack "db"
           (Demo.with_bag (Some Demo.net) "mysql5.7" Demo.public_bag) []
           Demo.public_bag (mysql MysqlEngineVersion.VER_5_7));
    reflexivity.
Defined.

Lemma network_default_witness :
  (∃ this literal,
     new_RDSInstance (H:=Demo.stage) Demo.stack "db" Demo.db1 [] =
       (Ok this,
        [NewConstruct Demo.stack "db";
         NewVpc (Demo.stack ++ ["db"]) "vpc" {| natGateways := Some 0 |};
         NewDatabaseInstance (Demo.stack ++ ["db"]) "DB" literal])
     ∧ dp_vpc literal = {| vpcId := "vpc-of-vpc" |}
     ∧ dp_vpcSubnets literal =
         Some {| subnetType := Some PRIVATE_ISOLATED; subnetGroupName := None |})
  ∧ (∃ this literal,
       new_RDSInstance (H:=Demo.stage) Demo.stack "db"
         (Demo.with_bag (Some Demo.net) "mysql5.7" empty_bag) [] =
         (Ok this,
          [NewConstruct Demo.stack "db";
           NewDatabaseInstance (Demo.stack ++ ["db"]) "DB" literal])
       ∧ dp_vpc literal = Demo.net).
Proof.
  split.
  - apply (network_default (P:=Demo.stage) Demo.stack "db" Demo.db1 []
             empty_bag (mysql MysqlEngineVersion.VER_5_7));
      reflexivity.
  - apply (network_default (P:=Demo.stage) Demo.stack "db"
             (Demo.with_bag (Some Demo.net) "mysql5.7" empty_bag) []
             empty_bag (mysql MysqlEngineVersion.VER_5_7));
      reflexivity.
Defined.

Lemma instance_type_default_witness :
  (∃ this literal,
     new_RDSInstance (H:=Demo.stage) Demo.stack "db" Demo.db1 [] =
       (Ok this,
        [NewConstruct Demo.stack "db";
         NewVpc (Demo.stack ++ ["db"]) "vpc" {| natGateways := Some 0 |};
         NewDatabaseInstance (Demo.stack ++ ["db"]) "DB" literal])
     ∧ dp_instanceType literal = Some (InstanceType_of BURSTABLE3 SMALL))
  ∧ (∃ this literal,
       new_RDSInstance (H:=Demo.stage) Demo.stack "db"
         (Demo.with_bag None "postgresql11.13" Demo.large_bag) [] =
         (Ok this,
          [NewConstruct Demo.stack "db";
           NewVpc (Demo.stack ++ ["db"]) "vpc" {| natGateways := Some 0 |};
           NewDatabaseInstance (Demo.stack ++ ["db"]) "DB" literal])
       ∧ dp_instanceType literal = Some (InstanceType_of MEMORY5 LARGE)).
Proof.
  split.
  - destruct (instance_type_default (P:=Demo.stage) Demo.stack "db" Demo.db1 []
                empty_bag (mysql MysqlEngineVersion.VER_5_7)
                eq_refl eq_refl eq_refl)
      as (this & literal & Hrun & Hdefault & _).
    exists this, literal. split; [exact Hrun|]. by apply Hdefault.
  - destruct (instance_type_default (P:=Demo.stage) Demo.stack "db"
                (Demo.with_bag None "postgresql11.13" Demo.large_bag) []
                Demo.large_bag (postgres PostgresEngineVersion.VER_11_13)
                eq_refl eq_refl eq_refl)
      as (this & literal & Hrun & _ & Hoverride).
    exists this, literal. split; [exact Hrun|]. by apply Hoverride.
Defined.

(** ** Errors of the create-new path, and the end-to-end example *)

Section Errors.
Context `{P : Provisioning}.
Implicit Types (props : RDSInstanceProps) (bag : RDSCdkDatabaseInstanceProps).
Implicit Types (w : World) (scope : Path) (id : string).

(** The strings [getEngine] resolves are the two of [supported_engines]. *)
Lemma getEngine_supported (engine : string) :
  (∃ e, getEngine engine = Ok e) ↔ engine ∈ supported_engines.
Proof.
  unfold getEngine, supported_engines. split.
  - destruct (String.eqb_spec engine "mysql5.7") as [Hmy|_];
      [subst engine; repeat constructor|].
    destruct (String.eqb_spec engine "postgresql11.13") as [Hpg|_];
      [subst engine; repeat constructor|].
    by intros [e ?].
  - rewrite !elem_of_cons, elem_of_nil. intros [->|[->|[]]]; eauto.
Qed.

(** C5.  What the code does with an unsupported engine: for the engine
    string "mysql5.6" (with no override bag) the constructor throws the
    unsupported-engine error and registers nothing but the node of the
    wrapper; the message spells out four engines as supported, among them
    "mysql5.6" itself and "postgresql10.14", both of which [getEngine]
    rejects with this message, so the list is not the supported set. *)
Theorem unsupported_engine_message_lists_rejected_engines
    scope id w (vpc : option IVpc) (name : string) :
  new_RDSInstance scope id
    {| p_vpc := vpc; p_databaseName := name; p_engine := "mysql5.6";
       p_cdk := None |} w
  = (Throw unsupported_engine_message,
     w ++ [NewConstruct scope (node_id_of id)])
  ∧ engines_listed
      ["mysql5.6"; "mysql5.7"; "mysql8.0"; "postgresql10.14"; "postgresql11.13"]
      unsupported_engine_message
    = ["mysql5.6"; "mysql5.7"; "postgresql10.14"; "postgresql11.13"]
  ∧ supported_engines = ["mysql5.7"; "postgresql11.13"]
  ∧ JS.includes "mysql5.6" unsupported_engine_message = true
  ∧ JS.includes "postgresql10.14" unsupported_engine_message = true
  ∧ getEngine "mysql5.6" = Throw unsupported_engine_message
  ∧ getEngine "postgresql10.14" = Throw unsupported_engine_message.
Proof.
  split; [|by vm_compute].
  by rewrite (create_path_engine_rejected scope id _ w empty_bag
                unsupported_engine_message).
Qed.

(** C8.  On the create-new path, a bag whose [credentials] carry no secret
    is not constructed: the constructor throws, with the credentials
    message when no top-level field is repeated in the bag, and registers
    nothing but the node of the wrapper.  Credentials that carry a secret
    pass the validation, which then returns the bag, when no top-level
    field is repeated. *)
Theorem credentials_need_managed_secret scope id props w c :
  takes_import_path props = false →
  bag_credentials (instanceProps_of props) = Some c →
  (c_secret c = None →
     ∃ msg,
       new_RDSInstance scope id props w =
         (Throw msg, w ++ [NewConstruct scope (node_id (super_node scope id props))])
       ∧ (first_conflict (instanceProps_of props) = None →
          msg = credentials_message))
  ∧ (∀ s, c_secret c = Some s →
       first_conflict (instanceProps_of props) = None →
       validateCDKPropWhenIsInstanceProps props = Ok (instanceProps_of props)).
Proof.
  intros Hpath Hcred. split.
  - intros Hnone.
    destruct (first_conflict (instanceProps_of props)) as [f|] eqn:Hconf.
    + exists (conflict_message f). split; [|done].
      apply create_path_rejected; [done|]. by apply validate_conflict.
    + exists credentials_message. split; [|done].
      apply create_path_rejected; [done|].
      rewrite (validate_no_conflict _ Hconf), Hcred. simpl. by rewrite Hnone.
  - intros s Hsome Hconf.
    rewrite (validate_no_conflict _ Hconf), Hcred. simpl. by rewrite Hsome.
Qed.

(** C9.  The configuration [{ databaseName: "db1", engine: "mysql5.7" }],
    with no network and no overrides, is constructed: the wrapper
    registers itself, a network and one database instance, whose subnet
    selection is isolated-private and whose identifier is the prefixed
    name of the id of the wrapper's node. *)
Theorem db1_end_to_end scope id w :
  ∃ this literal,
    new_RDSInstance scope id Demo.db1 w =
      (Ok this,
       w ++ [NewConstruct scope (node_id_of id);
             NewVpc (scope ++ [node_id_of id]) "vpc" {| natGateways := Some 0 |};
             NewDatabaseInstance (scope ++ [node_id_of id]) "DB" literal])
    ∧ node_id (this_node this) = node_id_of id
    ∧ dp_vpcSubnets literal =
        Some {| subnetType := Some PRIVATE_ISOLATED; subnetGroupName := None |}
    ∧ dp_instanceIdentifier literal = Some (logicalPrefixedName (node_id_of id))
    ∧ dp_engine literal = mysql MysqlEngineVersion.VER_5_7
    ∧ dp_databaseName literal = "db1"
    ∧ this_cdk_instance this =
        rds_DatabaseInstance (scope ++ [node_id_of id]) "DB" literal.
Proof.
  pose proof (create_path_ok scope id Demo.db1 w empty_bag
                (mysql MysqlEngineVersion.VER_5_7) eq_refl eq_refl eq_refl)
    as Hrun.
  simpl in Hrun. eexists _, _. split; [exact Hrun|]. done.
Qed.

End Errors.

Lemma credentials_need_managed_secret_witness :
  takes_import_path
    (Demo.with_bag None "mysql5.7" (Demo.credentials_bag Demo.password_credentials))
    = false
  ∧ (∃ msg,
       new_RDSInstance (H:=Demo.stage) Demo.stack "db"
         (Demo.with_bag None "mysql5.7"
            (Demo.credentials_bag Demo.password_credentials)) [] =
         (Throw msg, [NewConstruct Demo.stack "db"])
       ∧ msg = credentials_message)
  ∧ validateCDKPropWhenIsInstanceProps (H:=Demo.stage)
      (Demo.with_bag None "mysql5.7" (Demo.credentials_bag Demo.secret_credentials))
    = Ok (Demo.credentials_bag Demo.secret_credentials).
Proof.
  split; [reflexivity|]. split.
  - destruct (credentials_need_managed_secret (P:=Demo.stage) Demo.stack "db"
                (Demo.with_bag None "mysql5.7"
                   (Demo.credentials_bag Demo.password_credentials)) []
                Demo.password_credentials eq_refl eq_refl)
      as [Hthrows _].
    destruct (Hthrows eq_refl) as (msg & Hrun & Hmsg).
    exists msg. split; [exact Hrun|]. by apply Hmsg.
  - destruct (credentials_need_managed_secret (P:=Demo.stage) Demo.stack "db"
                (Demo.with_bag None "mysql5.7"
                   (Demo.credentials_bag Demo.secret_credentials)) []
                Demo.secret_credentials eq_refl eq_refl)
      as [_ Hpasses].
    exact (Hpasses Demo.imported_secret eq_refl eq_refl).
Defined.

(** ** The binding descriptor *)

Section Binding.
Context `{P : Provisioning}.
Implicit Types (props : RDSInstanceProps) (bag : RDSCdkDatabaseInstanceProps).
Implicit Types (w : World) (scope : Path) (id : string) (this : RDSInstance).

Lemma or_else_secret_pattern (s : ISecret) :
  JS.or_else (s_secretFullArn s) (s_secretArn s +:+ "*") = secret_pattern s.
Proof. reflexivity. Qed.

(** With a secret in place, the descriptor is read off the fields. *)
Lemma getFunctionBinding_with_secret this s :
  this_secret this = Some s →
  getFunctionBinding this =
    Ok {| clientPackage := "rds";
          variables :=
            <["databaseName" := plain (databaseName this)]>
              (<["secretArn" := plain (s_secretArn s)]>
                 (<["instanceArn" := plain (instanceArn this)]> ∅));
          permissions :=
            <["secretsmanager:DescribeSecret" := [secret_pattern s]]>
              (<["secretsmanager:GetSecretValue" := [secret_pattern s]]>
                 (<["rds-data:*" := [instanceArn this]]> ∅)) |}.
Proof.
  intros Hs. unfold getFunctionBinding, secretArn, secret_resource.
  rewrite Hs. run. by rewrite or_else_secret_pattern.
Qed.

(** A constructed wrapper holds a secret: the supplied one on the import
    path, the one of the created instance on the create-new path. *)
Lemma constructed_has_secret scope id props w this w' :
  renders_secret P →
  new_RDSInstance scope id props w = (Ok this, w') →
  is_Some (this_secret this) ∧ this_props this = props.
Proof.
  intros Hrenders.
  destruct (takes_import_path props) eqn:Hpath.
  - unfold takes_import_path in Hpath.
    destruct (p_cdk props) as [cdk|] eqn:Hcdk; [|done].
    destruct (cdk_instance cdk) as [[handle|bag]|] eqn:Hinst; try done.
    rewrite (import_path_run _ _ _ _ _ _ Hcdk Hinst).
    destruct (cdk_secret cdk) as [s|]; [|done].
    intros [= <- _]. simpl. eauto.
  - destruct (validateCDKPropWhenIsInstanceProps props) as [bag|m] eqn:Hval.
    + destruct (getEngine (JS.or_else (Some (p_engine props)) "mysql5.7"))
        as [e|m] eqn:Heng.
      * rewrite (create_path_ok _ _ _ _ _ _ Hpath Hval Heng).
        intros [= <- _]. simpl. split; [|done].
        apply Hrenders. simpl.
        by destruct (validate_ok_inv _ _ Hval) as (_ & _ & _ & _ & Hcred).
      * by rewrite (create_path_engine_rejected _ _ _ _ _ _ Hpath Hval Heng).
    + by rewrite (create_path_rejected _ _ _ _ _ Hpath Hval).
Qed.

(** C10.  [getFunctionBinding] takes the constructed wrapper and nothing
    else, so it reads no log and registers nothing.  For every wrapper the
    constructor returns, given that the libraries render a secret for
    validated credentials, it returns a descriptor: the client package is
    "rds"; the variables are exactly [instanceArn], [secretArn] and
    [databaseName], each of type "plain" with the value of the accessor of
    that name; the permissions are exactly "rds-data:*" on the instance
    ARN and the two Secrets Manager actions on the full ARN of the secret
    when that is set and non-empty, otherwise on its ARN followed by
    "*".  The accessors are pinned to what they read: the instance ARN, in
    the variable and in the permission, is the [instanceArn] of the handle
    the wrapper holds, the secret ARN is the [secretArn] of the secret it
    holds, and the database name is the top-level [databaseName]. *)
Theorem getFunctionBinding_descriptor scope id props w this w' :
  renders_secret P →
  new_RDSInstance scope id props w = (Ok this, w') →
  ∃ s binding,
    this_secret this = Some s
    ∧ secretArn this = Ok (s_secretArn s)
    ∧ databaseName this = p_databaseName props
    ∧ instanceArn this = di_instanceArn (this_cdk_instance this)
    ∧ getFunctionBinding this = Ok binding
    ∧ clientPackage binding = "rds"
    ∧ dom (variables binding)
        = ({["instanceArn"; "secretArn"; "databaseName"]} : gset string)
    ∧ variables binding !! "instanceArn"
        = Some {| var_type := "plain"; var_value := instanceArn this |}
    ∧ variables binding !! "instanceArn"
        = Some {| var_type := "plain";
                  var_value := di_instanceArn (this_cdk_instance this) |}
    ∧ variables binding !! "secretArn"
        = Some {| var_type := "plain"; var_value := s_secretArn s |}
    ∧ variables binding !! "databaseName"
        = Some {| var_type := "plain"; var_value := databaseName this |}
    ∧ variables binding !! "databaseName"
        = Some {| var_type := "plain"; var_value := p_databaseName props |}
    ∧ dom (permissions binding)
        = ({["rds-data:*"; "secretsmanager:GetSecretValue";
             "secretsmanager:DescribeSecret"]} : gset string)
    ∧ permissions binding !! "rds-data:*" = Some [instanceArn this]
    ∧ permissions binding !! "rds-data:*"
        = Some [di_instanceArn (this_cdk_instance this)]
    ∧ permissions binding !! "secretsmanager:GetSecretValue"
        = Some [secret_pattern s]
    ∧ permissions binding !! "secretsmanager:DescribeSecret"
        = Some [secret_pattern s]
    ∧ (∀ full, s_secretFullArn s = Some full → full ≠ "" →
         secret_pattern s = full)
    ∧ (s_secretFullArn s = None → secret_pattern s = s_secretArn s +:+ "*").
Proof.
  intros Hrenders Hrun.
  destruct (constructed_has_secret _ _ _ _ _ _ Hrenders Hrun) as [[s Hs] Hprops].
  exists s. eexists. split; [exact Hs|].
  split; [by unfold secretArn; rewrite Hs|].
  split; [by unfold databaseName; rewrite Hprops|].
  split; [done|].
  split; [by apply getFunctionBinding_with_secret|].
  simpl. split; [done|].
  split; [rewrite !dom_insert_L, dom_empty_L; set_solver|].
  do 4 (split; [done|]).
  split; [by unfold databaseName; rewrite Hprops|].
  split; [rewrite !dom_insert_L, dom_empty_L; set_solver|].
  do 4 (split; [done|]).
  unfold secret_pattern. split.
  - intros full -> Hne. apply String.eqb_neq in Hne. by rewrite Hne.
  - by intros ->.
Qed.

End Binding.

Lemma demo_stage_renders_secret : renders_secret Demo.stage.
Proof.
  intros scope id p Hcred. simpl.
  destruct (dp_credentials p) as [c|]; [exact Hcred|eauto].
Qed.

Lemma getFunctionBinding_descriptor_witness :
  renders_secret Demo.stage
  ∧ (∃ this w',
       new_RDSInstance (H:=Demo.stage) Demo.stack "db"
         (Demo.importing (Some Demo.imported_secret)) [] = (Ok this, w')
       ∧ ∃ binding,
           getFunctionBinding this = Ok binding
           ∧ clientPackage binding = "rds"
           ∧ variables binding !! "instanceArn"
               = Some {| var_type := "plain";
                         var_value := "arn:aws:rds:us-east-1:1:db:my-instance" |}
           ∧ permissions binding !! "rds-data:*"
               = Some ["arn:aws:rds:us-east-1:1:db:my-instance"]
           ∧ permissions binding !! "secretsmanager:GetSecretValue"
               = Some ["arn:aws:secretsmanager:us-east-1:1:secret:my-secret-AbCdEf"])
  ∧ (∃ this w',
       new_RDSInstance (H:=Demo.stage) Demo.stack "db" Demo.db1 [] = (Ok this, w')
       ∧ ∃ binding,
           getFunctionBinding this = Ok binding
           ∧ variables binding !! "instanceArn"
               = Some {| var_type := "plain";
                         var_value :=
                           "arn:aws:rds:us-east-1:1:db:dev-sst-t3-example-db" |}
           ∧ variables binding !! "secretArn"
               = Some {| var_type := "plain";
                         var_value :=
                           "arn:aws:secretsmanager:us-east-1:1:secret:generated" |}
           ∧ variables binding !! "databaseName"
               = Some {| var_type := "plain"; var_value := "db1" |}
           ∧ permissions binding !! "rds-data:*"
               = Some ["arn:aws:rds:us-east-1:1:db:dev-sst-t3-example-db"]
           ∧ permissions binding !! "secretsmanager:DescribeSecret"
               = Some ["arn:aws:secretsmanager:us-east-1:1:secret:generated*"]).
Proof.
  split; [exact demo_stage_renders_secret|]. split.
  - eexists _, _. split; [reflexivity|].
    destruct (getFunctionBinding_descriptor (P:=Demo.stage) Demo.stack "db"
                (Demo.importing (Some Demo.imported_secret)) [] _ _
                demo_stage_renders_secret eq_refl)
      as (s & binding & Hs & _ & _ & _ & Hbinding & Hpkg & _ & _ & Hv & _ & _ & _
          & _ & _ & Hdata & Hget & _).
    injection Hs as <-.
    exists binding. repeat split; assumption.
  - eexists _, _. split; [reflexivity|].
    destruct (getFunctionBinding_descriptor (P:=Demo.stage) Demo.stack "db"
                Demo.db1 [] _ _ demo_stage_renders_secret eq_refl)
      as (s & binding & Hs & _ & _ & _ & Hbinding & _ & _ & _ & Hv & Hsv & _ & Hdv
          & _ & _ & Hdata & _ & Hdescribe & _).
    injection Hs as <-.
    exists binding. repeat split; assumption.
Defined.

(** ** The stack script *)

(** [new RDSInstance(stack, "db", { vpc, engine: "mysql5.7", databaseName })]
    as the stack script calls it: the instance goes into the network of the
    stack, in its isolated subnets, under the prefixed identifier. *)
Example stack_script_database :
  (new_RDSInstance (H:=Demo.stage) Demo.stack "db" Demo.site_db []).2 =
    [NewConstruct Demo.stack "db";
     NewDatabaseInstance (Demo.stack ++ ["db"]) "DB"
       {| dp_instanceIdentifier := Some "dev-sst-t3-example-db";
          dp_engine := mysql MysqlEngineVersion.VER_5_7;
          dp_vpc := Demo.net;
          dp_vpcSubnets := Some isolated_subnets;
          dp_instanceType := Some (InstanceType_of BURSTABLE3 SMALL);
          dp_databaseName := "dev-sst-t3-example-db";
          dp_credentials := None;
          dp_allocatedStorage := None;
          dp_multiAz := None |}].
Proof. reflexivity. Qed.

(** An empty engine string falls back to "mysql5.7" before [getEngine] sees
    it. *)
Example empty_engine_falls_back :
  instances_of
    (new_RDSInstance (H:=Demo.stage) Demo.stack "db"
       {| p_vpc := Some Demo.net; p_databaseName := "db1"; p_engine := "";
          p_cdk := None |} []).2
  = [{| dp_instanceIdentifier := Some "dev-sst-t3-example-db";
        dp_engine := mysql MysqlEngineVersion.VER_5_7;
        dp_vpc := Demo.net;
        dp_vpcSubnets := Some isolated_subnets;
        dp_instanceType := Some (InstanceType_of BURSTABLE3 SMALL);
        dp_databaseName := "db1";
        dp_credentials := None;
        dp_allocatedStorage := None;
        dp_multiAz := None |}].
Proof. reflexivity. Qed.

(** ** The constructor as a whole *)

Section Outcomes.
Context `{P : Provisioning}.
Implicit Types (props : RDSInstanceProps) (bag : RDSCdkDatabaseInstanceProps).
Implicit Types (w : World) (scope : Path) (id : string) (this : RDSInstance).

Lemma validate_throw_inv props msg :
  validateCDKPropWhenIsInstanceProps props = Throw msg →
  msg ∈ [engine_conflict_message; vpc_conflict_message;
         databaseName_conflict_message; credentials_message].
Proof.
  destruct (first_conflict (instanceProps_of props)) as [f|] eqn:Hconf.
  - rewrite (validate_conflict _ _ Hconf). intros [= <-].
    destruct f; simpl; repeat constructor.
  - rewrite (validate_no_conflict _ Hconf).
    destruct (_ && _); [|done]. intros [= <-]. repeat constructor.
Qed.

Lemma getEngine_throw_inv (engine : string) msg :
  getEngine engine = Throw msg → msg = unsupported_engine_message.
Proof.
  unfold getEngine. destruct (String.eqb _ _); [done|].
  destruct (String.eqb _ _); [done|]. by intros [= <-].
Qed.

Lemma import_path_inv props :
  takes_import_path props = true →
  ∃ cdk handle, p_cdk props = Some cdk ∧ cdk_instance cdk = Some (IsConstruct handle).
Proof.
  unfold takes_import_path. destruct (p_cdk props) as [cdk|]; [|done].
  destruct (cdk_instance cdk) as [[handle|bag]|] eqn:Hinst; try done. eauto.
Qed.

(** The five ways through the constructor. *)
Lemma construction_cases scope id props w :
  let node := super_node scope id props in
  let w0 := w ++ [NewConstruct scope (node_id node)] in
  (∃ cdk handle,
     p_cdk props = Some cdk ∧ cdk_instance cdk = Some (IsConstruct handle)
     ∧ cdk_secret cdk = None
     ∧ new_RDSInstance scope id props w
       = (Throw (missing_secret_message (node_id node)), w0))
  ∨ (∃ cdk handle s,
       p_cdk props = Some cdk ∧ cdk_instance cdk = Some (IsConstruct handle)
       ∧ cdk_secret cdk = Some s
       ∧ new_RDSInstance scope id props w
         = (Ok {| this_node := node; this_id := id; this_cdk_instance := handle;
                  this_props := props; this_secret := Some s |}, w0))
  ∨ (∃ msg,
       takes_import_path props = false
       ∧ validateCDKPropWhenIsInstanceProps props = Throw msg
       ∧ new_RDSInstance scope id props w = (Throw msg, w0))
  ∨ (∃ bag,
       takes_import_path props = false
       ∧ validateCDKPropWhenIsInstanceProps props = Ok bag
       ∧ getEngine (JS.or_else (Some (p_engine props)) "mysql5.7")
         = Throw unsupported_engine_message
       ∧ new_RDSInstance scope id props w = (Throw unsupported_engine_message, w0))
  ∨ (∃ bag engine,
       takes_import_path props = false
       ∧ validateCDKPropWhenIsInstanceProps props = Ok bag
       ∧ getEngine (JS.or_else (Some (p_engine props)) "mysql5.7") = Ok engine
       ∧ let literal :=
           instance_literal node props bag engine (resolved_vpc node (p_vpc props)) in
         let instance := rds_DatabaseInstance (node_path node) "DB" literal in
         new_RDSInstance scope id props w
         = (Ok {| this_node := node; this_id := id; this_cdk_instance := instance;
                  this_props := props; this_secret := di_secret instance |},
            w0 ++ network_registration node (p_vpc props)
               ++ [NewDatabaseInstance (node_path node) "DB" literal])).
Proof.
  intros node w0.
  destruct (takes_import_path props) eqn:Hpath.
  - destruct (import_path_inv _ Hpath) as (cdk & handle & Hcdk & Hinst).
    pose proof (import_path_run scope id props w cdk handle Hcdk Hinst) as Hrun.
    simpl in Hrun. destruct (cdk_secret cdk) as [s|] eqn:Hs.
    + right; left. by exists cdk, handle, s.
    + left. by exists cdk, handle.
  - destruct (validateCDKPropWhenIsInstanceProps props) as [bag|msg] eqn:Hval.
    + destruct (getEngine (JS.or_else (Some (p_engine props)) "mysql5.7"))
        as [e|msg] eqn:Heng.
      * do 4 right. exists bag, e. repeat split; try done.
        simpl. rewrite (create_path_ok _ _ _ _ _ _ Hpath Hval Heng).
        subst w0 node. by rewrite <- !app_assoc.
      * do 3 right; left. exists bag.
        pose proof (getEngine_throw_inv _ _ Heng) as ->.
        repeat split; try done. by eapply create_path_engine_rejected.
    + do 2 right; left. exists msg. repeat split; try done.
      by apply create_path_rejected.
Qed.

Lemma accepts_create props :
  takes_import_path props = false →
  accepts props = true ↔
    (∃ bag engine,
       validateCDKPropWhenIsInstanceProps props = Ok bag
       ∧ getEngine (JS.or_else (Some (p_engine props)) "mysql5.7") = Ok engine).
Proof.
  intros Hpath. unfold accepts. rewrite Hpath.
  destruct (first_conflict (instanceProps_of props)) as [f|] eqn:Hconf.
  - rewrite (validate_conflict _ _ Hconf). split; [done|]. by intros (? & ? & ? & _).
  - rewrite (validate_no_conflict _ Hconf). unfold credentials_managed, engine_resolves.
    destruct (bag_credentials (instanceProps_of props)) as [c|]; simpl.
    + destruct (c_secret c); simpl.
      * rewrite bool_decide_eq_true, <- getEngine_supported.
        split; [intros [e He]; eauto|intros (? & e & _ & He); eauto].
      * split; [done|]. by intros (? & ? & ? & _).
    + rewrite bool_decide_eq_true, <- getEngine_supported.
      split; [intros [e He]; eauto|intros (? & e & _ & He); eauto].
Qed.

End Outcomes.

(** ** What the constructor registers, and under which names *)

Section Registration.
Context `{P : Provisioning}.
Implicit Types (props : RDSInstanceProps) (bag : RDSCdkDatabaseInstanceProps).
Implicit Types (w : World) (scope : Path) (id : string) (this : RDSInstance).

(** What follows the node of the wrapper in the log, in each case. *)
Lemma construction_log scope id props w :
  let node := super_node scope id props in
  ∃ added,
    (new_RDSInstance scope id props w).2
      = w ++ NewConstruct scope (node_id node) :: added
    ∧ (added = []
       ∧ (∀ this, (new_RDSInstance scope id props w).1 = Ok this →
            takes_import_path props = true)
       ∨ ∃ this bag engine,
           (new_RDSInstance scope id props w).1 = Ok this
           ∧ takes_import_path props = false
           ∧ validateCDKPropWhenIsInstanceProps props = Ok bag
           ∧ getEngine (JS.or_else (Some (p_engine props)) "mysql5.7") = Ok engine
           ∧ this_node this = node ∧ this_id this = id
           ∧ added = network_registration node (p_vpc props)
                     ++ [NewDatabaseInstance (node_path node) "DB"
                           (instance_literal node props bag engine
                              (resolved_vpc node (p_vpc props)))]).
Proof.
  intros node.
  destruct (construction_cases scope id props w)
    as [(cdk & h & Hcdk & Hinst & Hs & Hrun)
       |[(cdk & h & s & Hcdk & Hinst & Hs & Hrun)
        |[(msg & Hpath & Hval & Hrun)
         |[(bag & Hpath & Hval & Heng & Hrun)
          |(bag & e & Hpath & Hval & Heng & Hrun)]]]];
    simpl in Hrun; rewrite Hrun; simpl.
  - exists []. split; [done|]. left. split; [done|]. by intros.
  - exists []. split; [done|]. left. split; [done|]. intros _ _.
    apply (handle_takes_import_path props h). by rewrite Hcdk.
  - exists []. split; [done|]. left. split; [done|]. by intros.
  - exists []. split; [done|]. left. split; [done|]. by intros.
  - eexists. split; [by rewrite <- app_assoc|].
    right. eexists _, bag, e. repeat split; try done.
Qed.

(** The error of the import path. *)
Lemma import_path_error scope id props w msg :
  (new_RDSInstance scope id props w).1 = Throw msg →
  takes_import_path props = true →
  msg = missing_secret_message (node_id (super_node scope id props)).
Proof.
  intros Hmsg Hpath.
  destruct (construction_cases scope id props w)
    as [(? & ? & _ & _ & _ & Hrun)
       |[(? & ? & ? & _ & _ & _ & Hrun)
        |[(? & Hpath' & _)
         |[(? & Hpath' & _)
          |(? & ? & Hpath' & _)]]]]; try congruence;
    rewrite Hrun in Hmsg; simpl in Hmsg; [by injection Hmsg as <-|done].
Qed.

(** The node and the [id] field of a constructed wrapper. *)
Lemma constructed_node scope id props w this :
  (new_RDSInstance scope id props w).1 = Ok this →
  this_node this = super_node scope id props ∧ this_id this = id.
Proof.
  intros Hthis.
  destruct (construction_cases scope id props w)
    as [(? & ? & _ & _ & _ & Hrun)
       |[(? & ? & ? & _ & _ & _ & Hrun)
        |[(? & _ & _ & Hrun)
         |[(? & _ & _ & _ & Hrun)
          |(? & ? & _ & _ & _ & Hrun)]]]];
    simpl in Hrun; rewrite Hrun in Hthis; simpl in Hthis; try done;
    by injection Hthis as <-.
Qed.

(** The three shapes of what follows the node of the wrapper. *)
Lemma construction_log_shapes scope id props w :
  let node := super_node scope id props in
  ∃ added,
    (new_RDSInstance scope id props w).2
      = w ++ NewConstruct scope (node_id node) :: added
    ∧ ((added = []
        ∧ ∀ this, (new_RDSInstance scope id props w).1 = Ok this →
            takes_import_path props = true)
       ∨ (∃ this bag engine v,
            (new_RDSInstance scope id props w).1 = Ok this
            ∧ takes_import_path props = false
            ∧ validateCDKPropWhenIsInstanceProps props = Ok bag
            ∧ p_vpc props = Some v
            ∧ added = [NewDatabaseInstance (node_path node) "DB"
                         (instance_literal node props bag engine v)])
       ∨ (∃ this bag engine,
            (new_RDSInstance scope id props w).1 = Ok this
            ∧ takes_import_path props = false
            ∧ validateCDKPropWhenIsInstanceProps props = Ok bag
            ∧ p_vpc props = None
            ∧ added = [NewVpc (node_path node) "vpc" default_vpc_props;
                       NewDatabaseInstance (node_path node) "DB"
                         (instance_literal node props bag engine
                            (ec2_Vpc (node_path node) "vpc" default_vpc_props))])).
Proof.
  intros node.
  destruct (construction_log scope id props w) as (added & Hlog & Hadded).
  exists added. split; [exact Hlog|].
  destruct Hadded as [Hnone
                     |(this & bag & e & Hok & Hpath & Hval & Heng & _ & _ & ->)].
  - by left.
  - right. destruct (p_vpc props) as [v|] eqn:Hvpc; simpl.
    + left. by exists this, bag, e, v.
    + right. by exists this, bag, e.
Qed.

(** The three readings of [props.cdk?.id || id]. *)
Lemma super_node_override scope id props cdk s :
  p_cdk props = Some cdk → cdk_id cdk = Some s → s ≠ "" →
  node_id (super_node scope id props) = node_id_of s.
Proof.
  intros Hcdk Hid Hne. unfold super_node, JS.or_else. simpl.
  rewrite Hcdk. simpl. rewrite Hid.
  apply String.eqb_neq in Hne. by rewrite Hne.
Qed.

Lemma super_node_fallback scope id props :
  JS.truthy_string (p_cdk props ≫= cdk_id) = false →
  node_id (super_node scope id props) = node_id_of id.
Proof.
  unfold super_node, JS.or_else, JS.truthy_string. simpl.
  destruct (p_cdk props ≫= cdk_id) as [s|]; [|done].
  by destruct (String.eqb s "").
Qed.

(** The identifier of a registered instance when the bag gives none. *)
Lemma default_identifier scope id props w added literal :
  (new_RDSInstance scope id props w).2
    = w ++ NewConstruct scope (node_id (super_node scope id props)) :: added →
  literal ∈ instances_of added →
  bag_instanceIdentifier (instanceProps_of props) = None →
  dp_instanceIdentifier literal
    = Some (logicalPrefixedName (node_id (super_node scope id props))).
Proof.
  intros Hlog Hin Hnone.
  destruct (construction_log_shapes scope id props w) as (added' & Hlog' & Hadded).
  simpl in Hlog'. rewrite Hlog in Hlog'.
  apply app_inv_head in Hlog'. injection Hlog' as <-.
  destruct Hadded as [[-> _]
                     |[(this & bag & e & v & _ & _ & Hval & _ & ->)
                      |(this & bag & e & _ & _ & Hval & _ & ->)]];
    simpl in Hin.
  - by apply elem_of_nil in Hin.
  - apply list_elem_of_singleton in Hin. subst literal. simpl.
    destruct (validate_ok_inv _ _ Hval) as (-> & _). by rewrite Hnone.
  - apply list_elem_of_singleton in Hin. subst literal. simpl.
    destruct (validate_ok_inv _ _ Hval) as (-> & _). by rewrite Hnone.
Qed.

(** The identifier of a registered instance when the bag has the key. *)
Lemma overriding_identifier scope id props w added literal v :
  (new_RDSInstance scope id props w).2
    = w ++ NewConstruct scope (node_id (super_node scope id props)) :: added →
  literal ∈ instances_of added →
  bag_instanceIdentifier (instanceProps_of props) = Some v →
  dp_instanceIdentifier literal = v.
Proof.
  intros Hlog Hin Hsome.
  destruct (construction_log_shapes scope id props w) as (added' & Hlog' & Hadded).
  simpl in Hlog'. rewrite Hlog in Hlog'.
  apply app_inv_head in Hlog'. injection Hlog' as <-.
  destruct Hadded as [[-> _]
                     |[(this & bag & e & v' & _ & _ & Hval & _ & ->)
                      |(this & bag & e & _ & _ & Hval & _ & ->)]];
    simpl in Hin.
  - by apply elem_of_nil in Hin.
  - apply list_elem_of_singleton in Hin. subst literal. simpl.
    destruct (validate_ok_inv _ _ Hval) as (-> & _). by rewrite Hsome.
  - apply list_elem_of_singleton in Hin. subst literal. simpl.
    destruct (validate_ok_inv _ _ Hval) as (-> & _). by rewrite Hsome.
Qed.

Lemma added_scope scope id props w added :
  (new_RDSInstance scope id props w).2
    = w ++ NewConstruct scope (node_id (super_node scope id props)) :: added →
  Forall (λ r, scope_of r = scope ++ [node_id (super_node scope id props)]) added.
Proof.
  intros Hlog.
  destruct (construction_log_shapes scope id props w) as (added' & Hlog' & Hadded).
  simpl in Hlog'. rewrite Hlog in Hlog'.
  apply app_inv_head in Hlog'. injection Hlog' as <-.
  destruct Hadded as [[-> _]
                     |[(this & bag & e & v & _ & _ & _ & _ & ->)
                      |(this & bag & e & _ & _ & _ & _ & ->)]];
    by repeat constructor.
Qed.

(** X5.  A non-empty [cdk.id] replaces the [id] argument as the id of the
    node: the wrapper is registered under it, what the wrapper creates is
    registered below it, and the missing-secret message quotes it.  The
    field [id] of the wrapper keeps the [id] argument.  The instance
    identifier is the prefixed name of that node id when the bag has no
    [instanceIdentifier] key; when the bag has the key, the instance gets
    what the bag holds under it, [undefined] included. *)
Theorem cdk_id_names_the_node scope id props w cdk s :
  p_cdk props = Some cdk →
  cdk_id cdk = Some s →
  s ≠ "" →
  ∃ added,
    (new_RDSInstance scope id props w).2
      = w ++ NewConstruct scope (node_id_of s) :: added
    ∧ Forall (λ r, scope_of r = scope ++ [node_id_of s]) added
    ∧ (∀ this, (new_RDSInstance scope id props w).1 = Ok this →
         this_id this = id ∧ node_id (this_node this) = node_id_of s)
    ∧ (∀ literal, literal ∈ instances_of added →
         bag_instanceIdentifier (instanceProps_of props) = None →
         dp_instanceIdentifier literal = Some (logicalPrefixedName (node_id_of s)))
    ∧ (∀ literal held, literal ∈ instances_of added →
         bag_instanceIdentifier (instanceProps_of props) = Some held →
         dp_instanceIdentifier literal = held)
    ∧ (∀ msg, (new_RDSInstance scope id props w).1 = Throw msg →
         takes_import_path props = true →
         msg = missing_secret_message (node_id_of s)).
Proof.
  intros Hcdk Hid Hne.
  pose proof (super_node_override scope id props cdk s Hcdk Hid Hne) as Hnode.
  destruct (construction_log_shapes scope id props w) as (added & Hlog & _).
  cbv zeta in Hlog. exists added.
  pose proof (added_scope _ _ _ _ _ Hlog) as Hscope.
  pose proof (default_identifier scope id props w added) as Hident.
  pose proof (overriding_identifier scope id props w added) as Hover.
  rewrite Hnode in Hlog, Hscope, Hident, Hover.
  split; [exact Hlog|]. split; [exact Hscope|]. split; [|split; [|split]].
  - intros this Hthis.
    destruct (constructed_node _ _ _ _ _ Hthis) as [-> ->]. by rewrite Hnode.
  - intros literal. by apply Hident.
  - intros literal held. by apply Hover.
  - intros msg Hmsg Hpath.
    by rewrite (import_path_error _ _ _ _ _ Hmsg Hpath), Hnode.
Qed.

(** X6.  Without a [cdk.id], or with an empty one, the [id] argument names
    the node: the wrapper is registered under it and what it creates below
    it.  The instance identifier is the prefixed name of that node id when
    the bag has no [instanceIdentifier] key; when the bag has the key, the
    instance gets what the bag holds under it, [undefined] included. *)
Theorem id_argument_names_the_node scope id props w :
  JS.truthy_string (p_cdk props ≫= cdk_id) = false →
  ∃ added,
    (new_RDSInstance scope id props w).2
      = w ++ NewConstruct scope (node_id_of id) :: added
    ∧ Forall (λ r, scope_of r = scope ++ [node_id_of id]) added
    ∧ (∀ this, (new_RDSInstance scope id props w).1 = Ok this →
         this_id this = id ∧ node_id (this_node this) = node_id_of id)
    ∧ (∀ literal, literal ∈ instances_of added →
         bag_instanceIdentifier (instanceProps_of props) = None →
         dp_instanceIdentifier literal = Some (logicalPrefixedName (node_id_of id)))
    ∧ (∀ literal held, literal ∈ instances_of added →
         bag_instanceIdentifier (instanceProps_of props) = Some held →
         dp_instanceIdentifier literal = held).
Proof.
  intros Hfalsy.
  pose proof (super_node_fallback scope id props Hfalsy) as Hnode.
  destruct (construction_log_shapes scope id props w) as (added & Hlog & _).
  cbv zeta in Hlog. exists added.
  pose proof (added_scope _ _ _ _ _ Hlog) as Hscope.
  pose proof (default_identifier scope id props w added) as Hident.
  pose proof (overriding_identifier scope id props w added) as Hover.
  rewrite Hnode in Hlog, Hscope, Hident, Hover.
  split; [exact Hlog|]. split; [exact Hscope|]. split; [|split].
  - intros this Hthis.
    destruct (constructed_node _ _ _ _ _ Hthis) as [-> ->]. by rewrite Hnode.
  - intros literal. by apply Hident.
  - intros literal held. by apply Hover.
Qed.

End Registration.

(** ** What the created instance is given *)

Section PassThrough.
Context `{P : Provisioning}.
Implicit Types (props : RDSInstanceProps) (bag : RDSCdkDatabaseInstanceProps).
Implicit Types (w : World) (scope : Path) (id : string) (this : RDSInstance).

(** X7.  On the create-new path, once validation passes and the engine
    resolves, the instance is created from the bag and the top-level fields
    as follows.  The identifier is the prefixed name of the node id when
    the bag has no [instanceIdentifier] key; when the bag has the key, the
    identifier is what the bag holds under it, so a bag that holds
    [undefined] there leaves the instance without identifier.  The
    credentials, the allocated storage and the multi-AZ flag
    of the bag are passed on as they are.  The database name is the
    top-level one, also when the bag holds an empty [databaseName], which
    validation lets through; the engine is the resolved top-level one, one
    of the two that [getEngine] knows. *)
Theorem created_instance_fields scope id props w bag engine :
  takes_import_path props = false →
  validateCDKPropWhenIsInstanceProps props = Ok bag →
  getEngine (JS.or_else (Some (p_engine props)) "mysql5.7") = Ok engine →
  ∃ this literal,
    new_RDSInstance scope id props w =
      (Ok this,
       w ++ [NewConstruct scope (node_id (super_node scope id props))]
         ++ network_registration (super_node scope id props) (p_vpc props)
         ++ [NewDatabaseInstance (node_path (super_node scope id props)) "DB" literal])
    ∧ (∀ held, bag_instanceIdentifier bag = Some held →
         dp_instanceIdentifier literal = held)
    ∧ (bag_instanceIdentifier bag = Some None →
         dp_instanceIdentifier literal = None)
    ∧ (bag_instanceIdentifier bag = None →
         dp_instanceIdentifier literal
           = Some (logicalPrefixedName (node_id (super_node scope id props))))
    ∧ dp_credentials literal = bag_credentials bag
    ∧ dp_allocatedStorage literal = bag_allocatedStorage bag
    ∧ dp_multiAz literal = bag_multiAz bag
    ∧ dp_databaseName literal = p_databaseName props
    ∧ (bag_databaseName bag = None ∨ bag_databaseName bag = Some "")
    ∧ dp_engine literal = engine
    ∧ (engine = mysql MysqlEngineVersion.VER_5_7
       ∨ engine = postgres PostgresEngineVersion.VER_11_13)
    ∧ this_cdk_instance this
        = rds_DatabaseInstance (node_path (super_node scope id props)) "DB" literal
    ∧ this_secret this = di_secret (this_cdk_instance this).
Proof.
  intros Hpath Hval Heng.
  pose proof (create_path_ok scope id props w bag engine Hpath Hval Heng) as Hrun.
  cbv zeta in Hrun. eexists _, _. split; [exact Hrun|]. simpl.
  destruct (validate_ok_inv _ _ Hval) as (_ & _ & _ & Hname & _).
  split; [by intros s ->|]. split; [by intros ->|]. split; [by intros ->|].
  do 4 (split; [done|]). split.
  { unfold JS.truthy_string in Hname.
    destruct (bag_databaseName bag) as [s|]; [|by left]. right.
    destruct (String.eqb_spec s ""); [by subst|done]. }
  split; [done|]. split; [|done].
  unfold getEngine in Heng.
  destruct (String.eqb _ "mysql5.7"); [left; congruence|].
  destruct (String.eqb _ "postgresql11.13"); [right; congruence|done].
Qed.

(** X8.  An empty engine string does not fail: [createInstance] replaces it
    by "mysql5.7" before [getEngine] sees it, so a create-new configuration
    that passes validation is constructed with the MySQL engine at version
    5.7, while the configuration kept by the wrapper still holds the empty
    string. *)
Theorem empty_engine_defaults_to_mysql scope id props w bag :
  takes_import_path props = false →
  validateCDKPropWhenIsInstanceProps props = Ok bag →
  p_engine props = "" →
  ∃ this literal,
    new_RDSInstance scope id props w =
      (Ok this,
       w ++ [NewConstruct scope (node_id (super_node scope id props))]
         ++ network_registration (super_node scope id props) (p_vpc props)
         ++ [NewDatabaseInstance (node_path (super_node scope id props)) "DB" literal])
    ∧ dp_engine literal = mysql MysqlEngineVersion.VER_5_7
    ∧ p_engine (this_props this) = ""
    ∧ getEngine (p_engine (this_props this)) = Throw unsupported_engine_message.
Proof.
  intros Hpath Hval Hempty.
  assert (getEngine (JS.or_else (Some (p_engine props)) "mysql5.7")
          = Ok (mysql MysqlEngineVersion.VER_5_7)) as Heng by (by rewrite Hempty).
  pose proof (create_path_ok scope id props w bag _ Hpath Hval Heng) as Hrun.
  cbv zeta in Hrun. eexists _, _. split; [exact Hrun|]. simpl.
  split; [done|]. by rewrite Hempty.
Qed.

End PassThrough.

(** ** The two exporters and the accessors *)

Section Exporters.
Context `{P : Provisioning}.
Implicit Types (props : RDSInstanceProps) (bag : RDSCdkDatabaseInstanceProps).
Implicit Types (w : World) (scope : Path) (id : string) (this : RDSInstance).

Lemma getConstructMetadata_with_secret this s :
  this_secret this = Some s →
  getConstructMetadata this =
    Ok {| md_type := "RDSInstance";
          md_engine := p_engine (this_props this);
          md_secretArn := s_secretArn s;
          md_instanceArn := instanceArn this;
          md_instanceIdentifier := instanceIdentifier this;
          md_databaseName := p_databaseName (this_props this) |}.
Proof. intros Hs. unfold getConstructMetadata, secretArn. by rewrite Hs. Qed.

Lemma exporters_without_secret this :
  this_secret this = None →
  secretArn this = Throw (type_error "secretArn")
  ∧ getConstructMetadata this = Throw (type_error "secretArn")
  ∧ getFunctionBinding this = Throw (type_error "secretArn").
Proof.
  intros Hs. unfold getConstructMetadata, getFunctionBinding, secretArn.
  by rewrite Hs.
Qed.

(** X9.  For any state of the wrapper, [getConstructMetadata] and
    [getFunctionBinding] return together or throw together, namely as the
    accessor [secretArn] does: both start by reading the secret the wrapper
    holds, and neither can fail anywhere else.  When they return, both
    report the ARN of that secret and the top-level database name. *)
Theorem exporters_return_together this :
  ((∃ m, getConstructMetadata this = Ok m) ↔ (∃ b, getFunctionBinding this = Ok b))
  ∧ ((∃ m, getConstructMetadata this = Ok m) ↔ is_Some (this_secret this))
  ∧ ((∃ a, secretArn this = Ok a) ↔ is_Some (this_secret this))
  ∧ (∀ m b s,
       getConstructMetadata this = Ok m →
       getFunctionBinding this = Ok b →
       this_secret this = Some s →
       md_type m = "RDSInstance"
       ∧ md_secretArn m = s_secretArn s
       ∧ variables b !! "secretArn"
           = Some {| var_type := "plain"; var_value := s_secretArn s |}
       ∧ md_databaseName m = p_databaseName (this_props this)
       ∧ variables b !! "databaseName"
           = Some {| var_type := "plain";
                     var_value := p_databaseName (this_props this) |}).
Proof.
  destruct (this_secret this) as [s|] eqn:Hs.
  - rewrite (getConstructMetadata_with_secret _ _ Hs),
      (getFunctionBinding_with_secret _ _ Hs).
    unfold secretArn. rewrite Hs.
    split; [split; eauto|]. split; [split; eauto|]. split; [split; eauto|].
    intros m b s' [= <-] [= <-] [= <-]. by simpl.
  - destruct (exporters_without_secret _ Hs) as (-> & -> & ->).
    split; [split; by intros [x Hx]|].
    split; [split; [by intros [x Hx]|by intros [x Hx]]|].
    split; [split; [by intros [x Hx]|by intros [x Hx]]|].
    by intros.
Qed.

(** X10.  For every wrapper the constructor returns, given that the
    libraries render a secret for validated credentials,
    [getConstructMetadata] returns: the type is "RDSInstance", the engine
    and the database name are those of the configuration as it was given
    (the engine string before any fallback), and the secret ARN, instance
    ARN and instance identifier are those of the accessors. *)
Theorem getConstructMetadata_of_constructed scope id props w this w' :
  renders_secret P →
  new_RDSInstance scope id props w = (Ok this, w') →
  ∃ s,
    this_secret this = Some s
    ∧ getConstructMetadata this =
        Ok {| md_type := "RDSInstance";
              md_engine := p_engine props;
              md_secretArn := s_secretArn s;
              md_instanceArn := di_instanceArn (this_cdk_instance this);
              md_instanceIdentifier := di_instanceIdentifier (this_cdk_instance this);
              md_databaseName := p_databaseName props |}.
Proof.
  intros Hrenders Hrun.
  destruct (constructed_has_secret _ _ _ _ _ _ Hrenders Hrun) as [[s Hs] Hprops].
  exists s. split; [done|].
  by rewrite (getConstructMetadata_with_secret _ _ Hs), Hprops.
Qed.

(** X11.  An imported wrapper answers from what was supplied: the instance
    ARN, the instance identifier and the endpoint host name are those of the
    handle, the database name is the top-level one, and the secret ARN is
    that of [cdk.secret], whatever secret the handle itself carries. *)
Theorem imported_wrapper_accessors scope id props w cdk handle s :
  p_cdk props = Some cdk →
  cdk_instance cdk = Some (IsConstruct handle) →
  cdk_secret cdk = Some s →
  ∃ this,
    new_RDSInstance scope id props w =
      (Ok this, w ++ [NewConstruct scope (node_id (super_node scope id props))])
    ∧ instanceArn this = di_instanceArn handle
    ∧ instanceIdentifier this = di_instanceIdentifier handle
    ∧ instanceEndpoint this = hostname (di_instanceEndpoint handle)
    ∧ databaseName this = p_databaseName props
    ∧ secretArn this = Ok (s_secretArn s)
    ∧ secret_resource this = Ok (secret_pattern s).
Proof.
  intros Hcdk Hinst Hs.
  pose proof (import_path_run scope id props w cdk handle Hcdk Hinst) as Hrun.
  cbv zeta in Hrun. rewrite Hs in Hrun.
  eexists. split; [exact Hrun|]. done.
Qed.

End Exporters.

(** ** The stack script, run *)

Section SiteFacts.
Context `{P : Provisioning} `{L : Site.Libraries}.
Implicit Types (stack : Path) (env : gmap string string) (log : list Site.Call).

(** The constructor accepts the configuration of the script. *)
Lemma site_database_constructed stack (vpc : IVpc) :
  let node := {| node_scope := stack; node_id := node_id_of "db" |} in
  let literal :=
    instance_literal node (Site.database_props vpc) empty_bag
      (mysql MysqlEngineVersion.VER_5_7) vpc in
  let instance := rds_DatabaseInstance (stack ++ [node_id_of "db"]) "DB" literal in
  new_RDSInstance stack "db" (Site.database_props vpc) [] =
    (Ok {| this_node := node; this_id := "db"; this_cdk_instance := instance;
           this_props := Site.database_props vpc;
           this_secret := di_secret instance |},
     [NewConstruct stack (node_id_of "db");
      NewDatabaseInstance (stack ++ [node_id_of "db"]) "DB" literal]).
Proof.
  intros node literal instance.
  by rewrite (create_path_ok stack "db" (Site.database_props vpc) [] empty_bag
                (mysql MysqlEngineVersion.VER_5_7) eq_refl eq_refl eq_refl).
Qed.

(** The whole run of the script. *)
Lemma Site_run stack env log :
  let vpc := Site.stack_Vpc stack (logicalPrefixedName "net") Site.network_props in
  let sg := Site.ec2_SecurityGroup stack (logicalPrefixedName "lambda-sg") vpc
              "Allow lambda functions to access the database" in
  let literal :=
    instance_literal {| node_scope := stack; node_id := node_id_of "db" |}
      (Site.database_props vpc) empty_bag (mysql MysqlEngineVersion.VER_5_7) vpc in
  let instance := rds_DatabaseInstance (stack ++ [node_id_of "db"]) "DB" literal in
  let url :=
    Site.database_url
      ((λ s, Site.secretValueFromJson s "username") <$> di_secret instance)
      ((λ s, Site.secretValueFromJson s "password") <$> di_secret instance)
      (hostname (di_instanceEndpoint instance)) (logicalPrefixedName "db") in
  Site.Site stack env log =
    (Ok tt,
     log ++
     [Site.NewNetwork stack (logicalPrefixedName "net") Site.network_props;
      Site.NewSecurityGroup stack (logicalPrefixedName "lambda-sg") vpc
        "Allow lambda functions to access the database";
      Site.SetDefaultFunctionProps vpc [sg];
      Site.ByWrapper (NewConstruct stack (node_id_of "db"));
      Site.ByWrapper (NewDatabaseInstance (stack ++ [node_id_of "db"]) "DB" literal);
      Site.AllowFrom instance sg 3306 "Allow access from lambda to Aurora DB";
      Site.AddDefaultFunctionEnv (<["DATABASE_URL" := url]> ∅);
      Site.NewParameter stack "DATABASE_URL" url;
      Site.NewNextjsSite stack "site" (<["DATABASE_URL" := url]> env)
        {| Site.server_vpc := vpc; Site.server_allowAllOutbound := true;
           Site.server_securityGroups := [sg] |};
      Site.AddOutputs (<["SiteUrl" := Site.site_url stack "site"]> ∅)]).
Proof.
  intros vpc sg literal instance url.
  unfold Site.Site, mbind, Site.Script_bind, Site.call, Site.by_wrapper.
  fold vpc. rewrite (site_database_constructed stack vpc).
  cbn [this_cdk_instance fmap list_fmap].
  by rewrite <- !app_assoc.
Qed.

End SiteFacts.

Section SiteProperties.
Context `{P : Provisioning} `{L : Site.Libraries}.
Implicit Types (stack : Path) (env : gmap string string) (log : list Site.Call).

(** X12.  The stack script never fails in the wrapper: whatever the
    libraries return, the configuration it passes is accepted.  The wrapper
    registers itself and one database instance and no network of its own;
    the instance is placed in the network of the stack, in the isolated
    subnets, a subnet type that the network of the stack configures, with
    the MySQL engine at version 5.7 and the prefixed names of "db" as
    database name and identifier. *)
Theorem site_database_placement stack env log :
  ∃ added literal,
    Site.Site stack env log = (Ok tt, log ++ added)
    ∧ Site.wrapper_calls added
        = [NewConstruct stack (node_id_of "db");
           NewDatabaseInstance (stack ++ [node_id_of "db"]) "DB" literal]
    ∧ networks_of (Site.wrapper_calls added) = []
    ∧ dp_vpc literal
        = Site.stack_Vpc stack (logicalPrefixedName "net") Site.network_props
    ∧ dp_vpcSubnets literal
        = Some {| subnetType := Some PRIVATE_ISOLATED; subnetGroupName := None |}
    ∧ PRIVATE_ISOLATED
        ∈ Site.sc_subnetType <$> Site.net_subnetConfiguration Site.network_props
    ∧ dp_engine literal = mysql MysqlEngineVersion.VER_5_7
    ∧ dp_databaseName literal = logicalPrefixedName "db"
    ∧ dp_instanceIdentifier literal = Some (logicalPrefixedName (node_id_of "db"))
    ∧ dp_instanceType literal = Some (InstanceType_of BURSTABLE3 SMALL)
    ∧ dp_credentials literal = None.
Proof.
  pose proof (Site_run stack env log) as Hrun. cbv zeta in Hrun.
  eexists _, _. split; [exact Hrun|]. simpl.
  repeat split. repeat constructor.
Qed.

(** X13.  The script hands out one connection string three times: to the
    default function environment, to the parameter "DATABASE_URL" and to the
    site.  It is the template filled with the user name and password
    values of the secret of the created instance, the host name of its
    endpoint, and the database name the instance was created with; when the
    created instance carries no secret, user name and password both read
    "undefined".  In the environment of the site it replaces any
    "DATABASE_URL" of the process environment, and every other variable of
    the process environment is kept. *)
Theorem site_database_url_shared stack env log :
  ∃ added literal url site_env,
    Site.Site stack env log = (Ok tt, log ++ added)
    ∧ instances_of (Site.wrapper_calls added) = [literal]
    ∧ Site.urls_handed_out added = [Some url; Some url; Some url]
    ∧ (let instance :=
         rds_DatabaseInstance (stack ++ [node_id_of "db"]) "DB" literal in
       (∀ s, di_secret instance = Some s →
          url = "mysql://" +:+ Site.secretValueFromJson s "username" +:+ ":"
                +:+ Site.secretValueFromJson s "password" +:+ "@"
                +:+ hostname (di_instanceEndpoint instance) +:+ "/"
                +:+ dp_databaseName literal +:+ "?connection_limit=5")
       ∧ (di_secret instance = None →
          url = "mysql://undefined:undefined@"
                +:+ hostname (di_instanceEndpoint instance) +:+ "/"
                +:+ dp_databaseName literal +:+ "?connection_limit=5"))
    ∧ Site.site_environments added = [site_env]
    ∧ site_env !! "DATABASE_URL" = Some url
    ∧ (∀ k, k ≠ "DATABASE_URL" → site_env !! k = env !! k).
Proof.
  pose proof (Site_run stack env log) as Hrun. cbv zeta in Hrun.
  eexists _, _, _, _. split; [exact Hrun|]. simpl.
  split; [done|]. split.
  { by rewrite !lookup_insert_eq. }
  split.
  { split.
    - intros s Hs. unfold Site.database_url. by rewrite Hs.
    - intros Hs. unfold Site.database_url. by rewrite Hs. }
  split; [done|]. split; [by rewrite lookup_insert_eq|].
  intros k Hk. by rewrite lookup_insert_ne.
Qed.

(** X14.  The script puts the database and the compute side in one network
    and opens the database to the compute side: the default function
    properties and the server of the site get the network of the stack and
    the one security group of the script, the wrapper creates the instance in
    that same network, and the only ingress rule lets that security group
    into the created instance on TCP port 3306. *)
Theorem site_network_shared stack env log :
  ∃ added literal vpc sg,
    Site.Site stack env log = (Ok tt, log ++ added)
    ∧ instances_of (Site.wrapper_calls added) = [literal]
    ∧ vpc = Site.stack_Vpc stack (logicalPrefixedName "net") Site.network_props
    ∧ sg = Site.ec2_SecurityGroup stack (logicalPrefixedName "lambda-sg") vpc
             "Allow lambda functions to access the database"
    ∧ dp_vpc literal = vpc
    ∧ Site.compute_placements added = [(vpc, [sg]); (vpc, [sg])]
    ∧ Site.ingress_rules added
        = [(rds_DatabaseInstance (stack ++ [node_id_of "db"]) "DB" literal, sg, 3306)].
Proof.
  pose proof (Site_run stack env log) as Hrun. cbv zeta in Hrun.
  eexists _, _, _, _. split; [exact Hrun|]. simpl.
  by repeat split.
Qed.

End SiteProperties.

(** ** The further properties on sample configurations *)

Lemma cdk_id_names_the_node_witness :
  p_cdk Sample.named
    = Some {| cdk_id := Some "Database"; cdk_instance := None; cdk_secret := None |}
  ∧ "Database" ≠ ""
  ∧ ∃ added,
      (new_RDSInstance (H:=Demo.stage) Demo.stack "db" Sample.named []).2
        = [] ++ NewConstruct Demo.stack "Database" :: added
      ∧ Forall (λ r, scope_of r = Demo.stack ++ ["Database"]) added
      ∧ (∀ literal, literal ∈ instances_of added →
           dp_instanceIdentifier literal = Some "dev-sst-t3-example-Database").
Proof.
  split; [reflexivity|]. split; [discriminate|].
  destruct (cdk_id_names_the_node (P:=Demo.stage) Demo.stack "db" Sample.named []
              _ "Database" eq_refl eq_refl ltac:(discriminate))
    as (added & Hlog & Hscope & _ & Hident & _).
  exists added. split; [exact Hlog|]. split; [exact Hscope|].
  intros literal Hin. exact (Hident literal Hin eq_refl).
Defined.

Lemma id_argument_names_the_node_witness :
  JS.truthy_string (p_cdk Demo.db1 ≫= cdk_id) = false
  ∧ (∃ added,
       (new_RDSInstance (H:=Demo.stage) Demo.stack "db" Demo.db1 []).2
         = [] ++ NewConstruct Demo.stack "db" :: added
       ∧ Forall (λ r, scope_of r = Demo.stack ++ ["db"]) added
       ∧ (∀ literal, literal ∈ instances_of added →
            dp_instanceIdentifier literal = Some "dev-sst-t3-example-db"))
  ∧ JS.truthy_string
      (p_cdk (Demo.with_bag None "mysql5.7" Sample.blank_identifier_bag) ≫= cdk_id)
    = false
  ∧ (∃ added,
       (new_RDSInstance (H:=Demo.stage) Demo.stack "db"
          (Demo.with_bag None "mysql5.7" Sample.blank_identifier_bag) []).2
         = [] ++ NewConstruct Demo.stack "db" :: added
       ∧ (∀ literal, literal ∈ instances_of added →
            dp_instanceIdentifier literal = None)).
Proof.
  split; [reflexivity|]. split; [|split; [reflexivity|]].
  - destruct (id_argument_names_the_node (P:=Demo.stage) Demo.stack "db" Demo.db1 []
                eq_refl)
      as (added & Hlog & Hscope & _ & Hident & _).
    exists added. split; [exact Hlog|]. split; [exact Hscope|].
    intros literal Hin. exact (Hident literal Hin eq_refl).
  - destruct (id_argument_names_the_node (P:=Demo.stage) Demo.stack "db"
                (Demo.with_bag None "mysql5.7" Sample.blank_identifier_bag) []
                eq_refl)
      as (added & Hlog & _ & _ & _ & Hheld).
    exists added. split; [exact Hlog|].
    intros literal Hin. exact (Hheld literal None Hin eq_refl).
Defined.

Lemma created_instance_fields_witness :
  validateCDKPropWhenIsInstanceProps (H:=Demo.stage)
    (Demo.with_bag None "postgresql11.13" Sample.identified_bag)
    = Ok Sample.identified_bag
  ∧ (∃ this literal,
       new_RDSInstance (H:=Demo.stage) Demo.stack "db"
         (Demo.with_bag None "postgresql11.13" Sample.identified_bag) [] =
         (Ok this,
          [NewConstruct Demo.stack "db";
           NewVpc (Demo.stack ++ ["db"]) "vpc" {| natGateways := Some 0 |};
           NewDatabaseInstance (Demo.stack ++ ["db"]) "DB" literal])
       ∧ dp_instanceIdentifier literal = Some "my-instance"
       ∧ dp_credentials literal = Some Demo.secret_credentials
       ∧ dp_multiAz literal = Some true
       ∧ dp_databaseName literal = "db1"
       ∧ dp_engine literal = postgres PostgresEngineVersion.VER_11_13)
  ∧ validateCDKPropWhenIsInstanceProps (H:=Demo.stage)
      (Demo.with_bag (Some Demo.net) "mysql5.7" Sample.blank_identifier_bag)
    = Ok Sample.blank_identifier_bag
  ∧ (∃ this literal,
       new_RDSInstance (H:=Demo.stage) Demo.stack "db"
         (Demo.with_bag (Some Demo.net) "mysql5.7" Sample.blank_identifier_bag) [] =
         (Ok this,
          [NewConstruct Demo.stack "db";
           NewDatabaseInstance (Demo.stack ++ ["db"]) "DB" literal])
       ∧ dp_instanceIdentifier literal = None).
Proof.
  split; [reflexivity|]. split; [|split; [reflexivity|]].
  - destruct (created_instance_fields (P:=Demo.stage) Demo.stack "db"
                (Demo.with_bag None "postgresql11.13" Sample.identified_bag) []
                Sample.identified_bag (postgres PostgresEngineVersion.VER_11_13)
                eq_refl eq_refl eq_refl)
      as (this & literal & Hrun & Hid & _ & _ & Hcred & _ & Haz & Hname & _ & Heng & _).
    exists this, literal. split; [exact Hrun|].
    split; [exact (Hid (Some "my-instance") eq_refl)|].
    split; [exact Hcred|]. split; [exact Haz|]. split; [exact Hname|exact Heng].
  - destruct (created_instance_fields (P:=Demo.stage) Demo.stack "db"
                (Demo.with_bag (Some Demo.net) "mysql5.7" Sample.blank_identifier_bag)
                [] Sample.blank_identifier_bag (mysql MysqlEngineVersion.VER_5_7)
                eq_refl eq_refl eq_refl)
      as (this & literal & Hrun & _ & Hblank & _).
    exists this, literal. split; [exact Hrun|]. exact (Hblank eq_refl).
Defined.

Lemma empty_engine_defaults_to_mysql_witness :
  p_engine Sample.no_engine = ""
  ∧ ∃ this literal,
      new_RDSInstance (H:=Demo.stage) Demo.stack "db" Sample.no_engine [] =
        (Ok this,
         [NewConstruct Demo.stack "db";
          NewDatabaseInstance (Demo.stack ++ ["db"]) "DB" literal])
      ∧ dp_engine literal = mysql MysqlEngineVersion.VER_5_7
      ∧ p_engine (this_props this) = ""
      ∧ getEngine (p_engine (this_props this)) = Throw unsupported_engine_message.
Proof.
  split; [reflexivity|].
  exact (empty_engine_defaults_to_mysql (P:=Demo.stage) Demo.stack "db"
           Sample.no_engine [] empty_bag eq_refl eq_refl eq_refl).
Defined.

Lemma getConstructMetadata_of_constructed_witness :
  renders_secret Demo.stage
  ∧ ∃ this w',
      new_RDSInstance (H:=Demo.stage) Demo.stack "db" Sample.no_engine []
        = (Ok this, w')
      ∧ ∃ s,
          this_secret this = Some s
          ∧ getConstructMetadata this =
              Ok {| md_type := "RDSInstance";
                    md_engine := "";
                    md_secretArn := s_secretArn s;
                    md_instanceArn := di_instanceArn (this_cdk_instance this);
                    md_instanceIdentifier :=
                      di_instanceIdentifier (this_cdk_instance this);
                    md_databaseName := "db1" |}.
Proof.
  split; [exact demo_stage_renders_secret|].
  eexists _, _. split; [reflexivity|].
  exact (getConstructMetadata_of_constructed (P:=Demo.stage) Demo.stack "db"
           Sample.no_engine [] _ _ demo_stage_renders_secret eq_refl).
Defined.

Lemma imported_wrapper_accessors_witness :
  ∃ this,
    new_RDSInstance (H:=Demo.stage) Demo.stack "db"
      (Demo.importing (Some Demo.imported_secret)) [] =
      (Ok this, [NewConstruct Demo.stack "db"])
    ∧ instanceArn this = "arn:aws:rds:us-east-1:1:db:my-instance"
    ∧ instanceIdentifier this = "my-instance"
    ∧ instanceEndpoint this = "my-instance.rds.internal"
    ∧ databaseName this = "db1"
    ∧ secretArn this = Ok "arn:aws:secretsmanager:us-east-1:1:secret:my-secret"
    ∧ secret_resource this
        = Ok "arn:aws:secretsmanager:us-east-1:1:secret:my-secret-AbCdEf".
Proof.
  exact (imported_wrapper_accessors (P:=Demo.stage) Demo.stack "db"
           (Demo.importing (Some Demo.imported_secret)) [] _ Demo.existing
           Demo.imported_secret eq_refl eq_refl eq_refl).
Defined.

(** ** The validation of the bag, in closed form *)

Section ValidationClosedForm.
Context `{P : Provisioning}.
Implicit Types (props : RDSInstanceProps) (bag : RDSCdkDatabaseInstanceProps).

(** X15.  [validateCDKPropWhenIsInstanceProps] changes nothing: when it
    returns, it returns the bag of the configuration as it is, and it
    returns exactly when that bag repeats no top-level field and its
    credentials are absent or carry a secret.  A configuration without
    [cdk], or with a [cdk] without [instance], validates to the empty bag. *)
Theorem validation_passes_iff_clean props bag :
  (validateCDKPropWhenIsInstanceProps props = Ok bag
   ↔ bag = instanceProps_of props
     ∧ first_conflict bag = None
     ∧ credentials_managed bag = true)
  ∧ (p_cdk props ≫= cdk_instance = None →
     validateCDKPropWhenIsInstanceProps props = Ok empty_bag).
Proof.
  split.
  - split.
    + intros Hval.
      destruct (validate_ok_inv _ _ Hval) as (Hbag & He & Hv & Hn & Hc).
      split; [done|]. split.
      * unfold first_conflict, repeats. by rewrite He, Hv, Hn.
      * unfold credentials_managed.
        destruct (bag_credentials bag) as [c|]; [|done].
        by destruct Hc as [s ->].
    + intros (-> & Hconf & Hcred).
      rewrite (validate_no_conflict _ Hconf).
      unfold credentials_managed in Hcred.
      destruct (bag_credentials (instanceProps_of props)) as [c|]; [|done].
      simpl. by destruct (c_secret c).
  - intros Hnone. unfold validateCDKPropWhenIsInstanceProps, instanceProps_of.
    by rewrite Hnone.
Qed.

End ValidationClosedForm.

Lemma validation_passes_iff_clean_witness :
  validateCDKPropWhenIsInstanceProps (H:=Demo.stage)
    (Demo.with_bag None "mysql5.7" Sample.identified_bag)
    = Ok Sample.identified_bag
  ∧ validateCDKPropWhenIsInstanceProps (H:=Demo.stage) Demo.db1 = Ok empty_bag.
Proof.
  split.
  - apply (validation_passes_iff_clean (P:=Demo.stage)
             (Demo.with_bag None "mysql5.7" Sample.identified_bag)
             Sample.identified_bag).
    by repeat split.
  - by apply (validation_passes_iff_clean (P:=Demo.stage) Demo.db1 empty_bag).
Defined.

(** ** The constructor when the libraries throw *)

Section FallibleFacts.
Context `{P : Provisioning} `{F : Fallible.Faults}.
Implicit Types (props : RDSInstanceProps) (bag : RDSCdkDatabaseInstanceProps).
Implicit Types (w : World) (scope : Path) (id : string) (this : RDSInstance).

Lemma fallible_super_throws scope id props w msg :
  Fallible.super_fault scope (JS.or_else (p_cdk props ≫= cdk_id) id) = Some msg →
  Fallible.new_RDSInstance scope id props w = (Throw msg, w).
Proof.
  intros Hsuper. unfold Fallible.new_RDSInstance. rewrite Hsuper.
  unfold Fallible.check. by run.
Qed.

(** Where the wrapper calls no library constructor but the base one, the
    faults of the others do not matter. *)
Lemma fallible_import_path scope id props w :
  Fallible.super_fault scope (JS.or_else (p_cdk props ≫= cdk_id) id) = None →
  takes_import_path props = true →
  Fallible.new_RDSInstance scope id props w = new_RDSInstance scope id props w.
Proof.
  intros Hsuper Hpath.
  unfold Fallible.new_RDSInstance, new_RDSInstance. rewrite Hsuper, Hpath.
  unfold Fallible.check. by run.
Qed.

Lemma fallible_rejected scope id props w msg :
  Fallible.super_fault scope (JS.or_else (p_cdk props ≫= cdk_id) id) = None →
  takes_import_path props = false →
  validateCDKPropWhenIsInstanceProps props = Throw msg →
  Fallible.new_RDSInstance scope id props w =
    (Throw msg, w ++ [NewConstruct scope (node_id (super_node scope id props))]).
Proof.
  intros Hsuper Hpath Hval.
  unfold Fallible.new_RDSInstance. rewrite Hsuper, Hpath, Hval.
  unfold Fallible.check. by run.
Qed.

Lemma fallible_engine_rejected scope id props w bag msg :
  Fallible.super_fault scope (JS.or_else (p_cdk props ≫= cdk_id) id) = None →
  takes_import_path props = false →
  validateCDKPropWhenIsInstanceProps props = Ok bag →
  getEngine (JS.or_else (Some (p_engine props)) "mysql5.7") = Throw msg →
  Fallible.new_RDSInstance scope id props w =
    (Throw msg, w ++ [NewConstruct scope (node_id (super_node scope id props))]).
Proof.
  intros Hsuper Hpath Hval Heng.
  unfold Fallible.new_RDSInstance, Fallible.createInstance.
  rewrite Hsuper, Hpath, Hval, Heng. unfold Fallible.check. by run.
Qed.

Lemma fallible_network_throws scope id props w bag engine msg :
  Fallible.super_fault scope (JS.or_else (p_cdk props ≫= cdk_id) id) = None →
  takes_import_path props = false →
  validateCDKPropWhenIsInstanceProps props = Ok bag →
  getEngine (JS.or_else (Some (p_engine props)) "mysql5.7") = Ok engine →
  p_vpc props = None →
  Fallible.vpc_fault (node_path (super_node scope id props)) "vpc" default_vpc_props
    = Some msg →
  Fallible.new_RDSInstance scope id props w =
    (Throw msg,
     w ++ [NewConstruct scope (node_id (super_node scope id props));
           NewVpc (node_path (super_node scope id props)) "vpc" default_vpc_props]).
Proof.
  intros Hsuper Hpath Hval Heng Hvpc Hfault.
  unfold Fallible.new_RDSInstance, Fallible.createInstance, Fallible.getVpc.
  rewrite Hsuper, Hpath, Hval, Heng, Hvpc, Hfault. unfold Fallible.check. run.
  by rewrite <- app_assoc.
Qed.

Lemma fallible_instance scope id props w bag engine :
  Fallible.super_fault scope (JS.or_else (p_cdk props ≫= cdk_id) id) = None →
  takes_import_path props = false →
  validateCDKPropWhenIsInstanceProps props = Ok bag →
  getEngine (JS.or_else (Some (p_engine props)) "mysql5.7") = Ok engine →
  Fallible.network_returns scope id props = true →
  let node := super_node scope id props in
  let literal :=
    instance_literal node props (instanceProps_of props) engine
      (resolved_vpc node (p_vpc props)) in
  let instance := rds_DatabaseInstance (node_path node) "DB" literal in
  Fallible.new_RDSInstance scope id props w =
    (match Fallible.instance_fault (node_path node) "DB" literal with
     | Some msg => Throw msg
     | None =>
         Ok {| this_node := node; this_id := id; this_cdk_instance := instance;
               this_props := props; this_secret := di_secret instance |}
     end,
     w ++ NewConstruct scope (node_id node)
       :: network_registration node (p_vpc props)
       ++ [NewDatabaseInstance (node_path node) "DB" literal]).
Proof.
  intros Hsuper Hpath Hval Heng Hnet node literal instance.
  subst instance literal node.
  unfold Fallible.network_returns in Hnet.
  unfold Fallible.new_RDSInstance, Fallible.createInstance, Fallible.getVpc.
  rewrite Hsuper, Hpath, Hval, Heng.
  destruct (p_vpc props) as [v|].
  - unfold Fallible.check. run.
    destruct (Fallible.instance_fault _ _ _); by rewrite <- !app_assoc.
  - destruct (Fallible.vpc_fault _ _ _); [done|].
    unfold Fallible.check. run.
    destruct (Fallible.instance_fault _ _ _); by rewrite <- !app_assoc.
Qed.

(** With no fault anywhere the constructor is the one of the sections
    above. *)
Lemma fallible_literal_of scope id props engine :
  getEngine (JS.or_else (Some (p_engine props)) "mysql5.7") = Ok engine →
  Fallible.literal_of scope id props
    = Some (instance_literal (super_node scope id props) props
              (instanceProps_of props) engine
              (resolved_vpc (super_node scope id props) (p_vpc props))).
Proof. unfold Fallible.literal_of. by intros ->. Qed.

End FallibleFacts.

Lemma no_faults_refines `{P : Provisioning} scope id props w :
  Fallible.new_RDSInstance (H0:=Fallible.no_faults) scope id props w
  = new_RDSInstance scope id props w.
Proof.
  unfold Fallible.new_RDSInstance, new_RDSInstance, Fallible.createInstance,
    createInstance, Fallible.getVpc, getVpc, Fallible.check. run.
  destruct (takes_import_path props); [done|].
  destruct (validateCDKPropWhenIsInstanceProps props); [|done].
  destruct (getEngine _); [|done].
  by destruct (p_vpc props).
Qed.

Section FallibleCases.
Context `{P : Provisioning} `{F : Fallible.Faults}.
Implicit Types (props : RDSInstanceProps) (bag : RDSCdkDatabaseInstanceProps).
Implicit Types (w : World) (scope : Path) (id : string) (this : RDSInstance).

(** A configuration that is not accepted is rejected by the wrapper
    itself, with one of its six messages, before any library constructor
    but the base one is called. *)
Lemma not_accepted_rejected scope id props w :
  accepts props = false →
  ∃ msg,
    new_RDSInstance scope id props w
      = (Throw msg, w ++ [NewConstruct scope (node_id (super_node scope id props))])
    ∧ msg ∈ configuration_errors (node_id (super_node scope id props))
    ∧ (takes_import_path props = false →
       ∃ r, (validateCDKPropWhenIsInstanceProps props = Throw msg
             ∨ validateCDKPropWhenIsInstanceProps props = Ok r
               ∧ getEngine (JS.or_else (Some (p_engine props)) "mysql5.7")
                 = Throw msg)).
Proof.
  intros Hacc.
  destruct (construction_cases scope id props w)
    as [(cdk & h & Hcdk & Hinst & Hs & Hrun)
       |[(cdk & h & s & Hcdk & Hinst & Hs & Hrun)
        |[(msg & Hpath & Hval & Hrun)
         |[(bag & Hpath & Hval & Heng & Hrun)
          |(bag & e & Hpath & Hval & Heng & Hrun)]]]].
  - eexists. split; [exact Hrun|]. split.
    + unfold configuration_errors. by constructor.
    + intros Hpath.
      rewrite (handle_takes_import_path props h) in Hpath
        by (by rewrite Hcdk; simpl). done.
  - exfalso. unfold accepts in Hacc.
    rewrite (handle_takes_import_path props h) in Hacc by (by rewrite Hcdk; simpl).
    by rewrite Hcdk in Hacc; simpl in Hacc; rewrite Hs in Hacc.
  - exists msg. split; [exact Hrun|]. split.
    + pose proof (validate_throw_inv _ _ Hval) as Hin.
      unfold configuration_errors. rewrite !elem_of_cons in Hin.
      rewrite !elem_of_cons. tauto.
    + intros _. exists empty_bag. by left.
  - exists unsupported_engine_message. split; [exact Hrun|]. split.
    + unfold configuration_errors. rewrite !elem_of_cons. auto 10.
    + intros _. exists bag. by right.
  - exfalso.
    assert (accepts props = true) as Htrue by (apply accepts_create; eauto).
    congruence.
Qed.

(** The five ways through the constructor when the libraries throw. *)
Lemma fallible_cases scope id props w :
  let node := super_node scope id props in
  let raw := JS.or_else (p_cdk props ≫= cdk_id) id in
  let w0 := w ++ [NewConstruct scope (node_id node)] in
  (∃ msg,
     Fallible.super_fault scope raw = Some msg
     ∧ Fallible.new_RDSInstance scope id props w = (Throw msg, w))
  ∨ (∃ msg,
       Fallible.super_fault scope raw = None
       ∧ accepts props = false
       ∧ msg ∈ configuration_errors (node_id node)
       ∧ Fallible.new_RDSInstance scope id props w = (Throw msg, w0))
  ∨ (∃ this,
       Fallible.super_fault scope raw = None
       ∧ accepts props = true
       ∧ takes_import_path props = true
       ∧ Fallible.new_RDSInstance scope id props w = (Ok this, w0))
  ∨ (∃ msg,
       Fallible.super_fault scope raw = None
       ∧ accepts props = true
       ∧ takes_import_path props = false
       ∧ p_vpc props = None
       ∧ Fallible.vpc_fault (node_path node) "vpc" default_vpc_props = Some msg
       ∧ Fallible.new_RDSInstance scope id props w
         = (Throw msg, w0 ++ [NewVpc (node_path node) "vpc" default_vpc_props]))
  ∨ (∃ literal,
       Fallible.super_fault scope raw = None
       ∧ accepts props = true
       ∧ takes_import_path props = false
       ∧ Fallible.network_returns scope id props = true
       ∧ Fallible.literal_of scope id props = Some literal
       ∧ Fallible.new_RDSInstance scope id props w
         = (match Fallible.instance_fault (node_path node) "DB" literal with
            | Some msg => Throw msg
            | None =>
                Ok {| this_node := node; this_id := id;
                      this_cdk_instance :=
                        rds_DatabaseInstance (node_path node) "DB" literal;
                      this_props := props;
                      this_secret :=
                        di_secret (rds_DatabaseInstance (node_path node) "DB" literal) |}
            end,
            w0 ++ network_registration node (p_vpc props)
               ++ [NewDatabaseInstance (node_path node) "DB" literal])).
Proof.
  intros node raw w0. subst node raw w0.
  destruct (Fallible.super_fault scope _) as [m|] eqn:Hsuper.
  { left. exists m. split; [done|]. by apply fallible_super_throws. }
  right.
  destruct (accepts props) eqn:Hacc; cycle 1.
  { left.
    destruct (not_accepted_rejected scope id props w Hacc) as (msg & Hrun & Hin & Hwhy).
    exists msg. repeat split; try done.
    destruct (takes_import_path props) eqn:Hpath.
    - by rewrite (fallible_import_path _ _ _ _ Hsuper Hpath).
    - destruct (Hwhy eq_refl) as (r & [Hval|[Hval Heng]]).
      + by apply fallible_rejected.
      + by eapply fallible_engine_rejected. }
  right.
  destruct (takes_import_path props) eqn:Hpath.
  { left.
    rewrite (fallible_import_path _ _ _ _ Hsuper Hpath).
    destruct (construction_cases scope id props w)
      as [(cdk & h & Hcdk & Hinst & Hs & Hrun)
         |[(cdk & h & s & Hcdk & Hinst & Hs & Hrun)
          |[(msg & Hpath' & _)
           |[(bag & Hpath' & _)
            |(bag & e & Hpath' & _)]]]]; try congruence.
    - exfalso. unfold accepts in Hacc. rewrite Hpath, Hcdk in Hacc.
      simpl in Hacc. by rewrite Hs in Hacc.
    - eexists. by repeat split. }
  right.
  destruct (proj1 (accepts_create props Hpath) Hacc) as (bag & e & Hval & Heng).
  destruct (Fallible.network_returns scope id props) eqn:Hnet.
  - right. eexists. split; [done|]. split; [done|]. split; [done|].
    split; [done|]. split; [by apply fallible_literal_of|].
    rewrite (fallible_instance scope id props w bag e Hsuper Hpath Hval Heng Hnet).
    by rewrite <- !app_assoc.
  - left. unfold Fallible.network_returns in Hnet.
    destruct (p_vpc props) as [v|] eqn:Hvpc; [done|].
    destruct (Fallible.vpc_fault _ _ _) as [m|] eqn:Hfault; [|done].
    exists m. repeat split; try done.
    rewrite (fallible_network_throws scope id props w bag e m
               Hsuper Hpath Hval Heng Hvpc Hfault).
    by rewrite <- app_assoc.
Qed.

End FallibleCases.

Section FallibleProperties.
Context `{P : Provisioning} `{F : Fallible.Faults}.
Implicit Types (props : RDSInstanceProps) (bag : RDSCdkDatabaseInstanceProps).
Implicit Types (w : World) (scope : Path) (id : string) (this : RDSInstance).

(** X1.  With libraries that may throw, the constructor returns a wrapper
    exactly when the configuration is one that [accepts] describes and
    every library constructor the wrapper calls for it returns: the base
    constructor, and on the create-new path the network constructor (when
    no network is given) and the instance constructor on the literal the
    wrapper builds. *)
Theorem construction_returns_iff_accepted_and_libraries_return scope id props w :
  (∃ this, (Fallible.new_RDSInstance scope id props w).1 = Ok this)
  ↔ accepts props = true ∧ Fallible.libraries_return scope id props = true.
Proof.
  unfold Fallible.libraries_return.
  destruct (fallible_cases scope id props w)
    as [(msg & Hsuper & Hrun)
       |[(msg & Hsuper & Hacc & _ & Hrun)
        |[(this & Hsuper & Hacc & Hpath & Hrun)
         |[(msg & Hsuper & Hacc & Hpath & Hvpc & Hfault & Hrun)
          |(literal & Hsuper & Hacc & Hpath & Hnet & Hlit & Hrun)]]]];
    rewrite Hrun, Hsuper; simpl.
  - split; [by intros [x Hx]|by intros [_ Hf]].
  - rewrite Hacc. split; [by intros [x Hx]|by intros [Hf _]].
  - rewrite Hacc, Hpath. split; [done|eauto].
  - rewrite Hacc, Hpath. simpl. split; [by intros [x Hx]|].
    intros [_ Hret]. exfalso.
    destruct (proj1 (accepts_create props Hpath) Hacc) as (bag & e & _ & Heng).
    rewrite (fallible_literal_of _ _ _ _ Heng) in Hret.
    unfold Fallible.network_returns in Hret. by rewrite Hvpc, Hfault in Hret.
  - rewrite Hacc, Hpath, Hlit, Hnet. simpl.
    destruct (Fallible.instance_fault _ _ literal) as [m|]; simpl.
    + split; [by intros [x Hx]|by intros [_ Hf]].
    + split; [done|eauto].
Qed.

(** X2.  A configuration that the wrapper does not accept is rejected by
    the wrapper itself, whatever the other library constructors would do:
    once the base constructor has returned, the constructor throws one of
    the six configuration messages, having registered its own node and
    nothing else, so no network and no instance. *)
Theorem rejected_configuration_registers_only_its_node scope id props w :
  Fallible.super_fault scope (JS.or_else (p_cdk props ≫= cdk_id) id) = None →
  accepts props = false →
  ∃ msg,
    Fallible.new_RDSInstance scope id props w
      = (Throw msg, w ++ [NewConstruct scope (node_id (super_node scope id props))])
    ∧ msg ∈ configuration_errors (node_id (super_node scope id props))
    ∧ instances_of (Fallible.new_RDSInstance scope id props w).2 = instances_of w
    ∧ networks_of (Fallible.new_RDSInstance scope id props w).2 = networks_of w.
Proof.
  intros Hsuper Hacc.
  destruct (fallible_cases scope id props w)
    as [(msg & Hsuper' & _)
       |[(msg & _ & _ & Hin & Hrun)
        |[(this & _ & Hacc' & _)
         |[(msg & _ & Hacc' & _)
          |(literal & _ & Hacc' & _)]]]]; try congruence.
  exists msg. rewrite Hrun. simpl. split; [done|]. split; [done|].
  rewrite instances_of_app, networks_of_app. simpl. by rewrite !app_nil_r.
Qed.

(** X3.  Every error of the constructor is of one of four kinds, each with
    its own state of the log.  The base constructor threw: nothing is
    registered.  The wrapper rejected the configuration with one of its six
    messages: only its node is registered.  The network constructor threw,
    on an accepted create-new configuration without a network: the node and
    the network are registered.  The instance constructor threw, on an
    accepted create-new configuration: the node, the network if one was
    made, and the instance are registered. *)
Theorem construction_errors_classified scope id props w msg w' :
  Fallible.new_RDSInstance scope id props w = (Throw msg, w') →
  let node := super_node scope id props in
  (Fallible.super_fault scope (JS.or_else (p_cdk props ≫= cdk_id) id) = Some msg
   ∧ w' = w)
  ∨ (accepts props = false
     ∧ msg ∈ configuration_errors (node_id node)
     ∧ w' = w ++ [NewConstruct scope (node_id node)])
  ∨ (accepts props = true
     ∧ takes_import_path props = false
     ∧ p_vpc props = None
     ∧ Fallible.vpc_fault (node_path node) "vpc" {| natGateways := Some 0 |}
       = Some msg
     ∧ w' = w ++ [NewConstruct scope (node_id node);
                  NewVpc (node_path node) "vpc" {| natGateways := Some 0 |}])
  ∨ (∃ literal,
       accepts props = true
       ∧ takes_import_path props = false
       ∧ Fallible.literal_of scope id props = Some literal
       ∧ Fallible.instance_fault (node_path node) "DB" literal = Some msg
       ∧ w' = w ++ NewConstruct scope (node_id node)
                :: network_registration node (p_vpc props)
                ++ [NewDatabaseInstance (node_path node) "DB" literal]).
Proof.
  intros Hthrown node. subst node.
  destruct (fallible_cases scope id props w)
    as [(m & Hsuper & Hrun)
       |[(m & Hsuper & Hacc & Hin & Hrun)
        |[(this & Hsuper & Hacc & Hpath & Hrun)
         |[(m & Hsuper & Hacc & Hpath & Hvpc & Hfault & Hrun)
          |(literal & Hsuper & Hacc & Hpath & Hnet & Hlit & Hrun)]]]];
    rewrite Hrun in Hthrown.
  - injection Hthrown as <- <-. by left.
  - injection Hthrown as <- <-. right; left. done.
  - done.
  - injection Hthrown as <- <-. right; right; left.
    repeat split; try done. by rewrite <- app_assoc.
  - destruct (Fallible.instance_fault _ _ literal) as [m|] eqn:Hfault; [|done].
    injection Hthrown as <- <-. right; right; right.
    exists literal. repeat split; try done. by rewrite <- !app_assoc.
Qed.

(** X4.  Whatever the configuration and whatever the libraries do, the
    constructor only appends to the log.  When the base constructor throws
    it appends nothing; otherwise it appends its own node and then only
    constructs directly under that node: at most one network, with the id
    "vpc", and at most one instance, with the id "DB".  The network
    constructor is called exactly for an accepted create-new configuration
    without a network, the instance constructor exactly for an accepted
    create-new configuration whose network is given or was made. *)
Theorem construction_log_under_faults scope id props w :
  let node := super_node scope id props in
  let raw := JS.or_else (p_cdk props ≫= cdk_id) id in
  ∃ added,
    (Fallible.new_RDSInstance scope id props w).2 = w ++ added
    ∧ (Fallible.super_fault scope raw ≠ None → added = [])
    ∧ (Fallible.super_fault scope raw = None →
       ∃ children,
         added = NewConstruct scope (node_id node) :: children
         ∧ Forall (λ r, scope_of r = scope ++ [node_id node]) children
         ∧ Forall (λ r, match r with
                        | NewConstruct _ _ => False
                        | NewVpc _ id' _ => id' = "vpc"
                        | NewDatabaseInstance _ id' _ => id' = "DB"
                        end) children)
    ∧ length (networks_of added) ≤ 1
    ∧ length (instances_of added) ≤ 1
    ∧ (length (networks_of added) = 1 ↔
         Fallible.super_fault scope raw = None
         ∧ accepts props = true
         ∧ takes_import_path props = false
         ∧ p_vpc props = None)
    ∧ (length (instances_of added) = 1 ↔
         Fallible.super_fault scope raw = None
         ∧ accepts props = true
         ∧ takes_import_path props = false
         ∧ Fallible.network_returns scope id props = true).
Proof.
  intros node raw. subst node raw.
  destruct (fallible_cases scope id props w)
    as [(m & Hsuper & Hrun)
       |[(m & Hsuper & Hacc & Hin & Hrun)
        |[(this & Hsuper & Hacc & Hpath & Hrun)
         |[(m & Hsuper & Hacc & Hpath & Hvpc & Hfault & Hrun)
          |(literal & Hsuper & Hacc & Hpath & Hnet & Hlit & Hrun)]]]];
    rewrite Hrun, Hsuper; simpl.
  - exists []. split; [by rewrite app_nil_r|]. split; [done|]. split; [done|].
    simpl. split; [lia|]. split; [lia|].
    split; (split; [done|by intros [? _]]).
  - eexists. split; [done|]. split; [done|].
    split; [intros _; eexists; split; [done|]; split; constructor|].
    simpl. split; [lia|]. split; [lia|].
    split; (split; [done|intros (_ & ? & _); congruence]).
  - eexists. split; [done|]. split; [done|].
    split; [intros _; eexists; split; [done|]; split; constructor|].
    simpl. split; [lia|]. split; [lia|].
    split; (split; [done|intros (_ & _ & ? & _); congruence]).
  - eexists. split; [by rewrite <- app_assoc|]. split; [done|].
    split; [intros _; eexists; split; [done|]; split; by repeat constructor|].
    simpl. split; [lia|]. split; [lia|]. split.
    + split; [done|lia].
    + split; [done|]. intros (_ & _ & _ & Hnet). exfalso.
      unfold Fallible.network_returns in Hnet. by rewrite Hvpc, Hfault in Hnet.
  - eexists. split; [by rewrite <- app_assoc|]. split; [done|].
    destruct (p_vpc props) as [v|] eqn:Hvpc; simpl.
    + split; [intros _; eexists; split; [done|]; split; by repeat constructor|].
      split; [lia|]. split; [lia|]. split.
      * split; [done|]. by intros (_ & _ & _ & ?).
      * split; [done|lia].
    + split; [intros _; eexists; split; [done|]; split; by repeat constructor|].
      split; [lia|]. split; [lia|]. split.
      * split; [done|lia].
      * split; [done|lia].
Qed.

End FallibleProperties.

Lemma rejected_configuration_registers_only_its_node_witness :
  Fallible.super_fault (Faults:=Strict.faults) Demo.stack
    (JS.or_else (p_cdk Sample.oracle ≫= cdk_id) "db") = None
  ∧ accepts (H:=Demo.stage) Sample.oracle = false
  ∧ ∃ msg,
      Fallible.new_RDSInstance (H:=Demo.stage) (H0:=Strict.faults)
        Demo.stack "db" Sample.oracle []
        = (Throw msg, [] ++ [NewConstruct Demo.stack "db"])
      ∧ msg ∈ configuration_errors "db"
      ∧ instances_of
          (Fallible.new_RDSInstance (H:=Demo.stage) (H0:=Strict.faults)
             Demo.stack "db" Sample.oracle []).2 = instances_of []
      ∧ networks_of
          (Fallible.new_RDSInstance (H:=Demo.stage) (H0:=Strict.faults)
             Demo.stack "db" Sample.oracle []).2 = networks_of [].
Proof.
  split; [reflexivity|]. split; [reflexivity|].
  exact (rejected_configuration_registers_only_its_node (P:=Demo.stage)
           (F:=Strict.faults) Demo.stack "db" Sample.oracle [] eq_refl eq_refl).
Defined.

Lemma construction_errors_classified_witness :
  (∃ literal,
     Fallible.new_RDSInstance (H:=Demo.stage) (H0:=Strict.faults)
       Demo.stack "db" Demo.site_db []
       = (Throw "There are no 'Isolated' subnet groups in this VPC",
          [NewConstruct Demo.stack "db";
           NewDatabaseInstance (Demo.stack ++ ["db"]) "DB" literal])
     ∧ dp_vpc literal = Demo.net
     ∧ Fallible.instance_fault (Faults:=Strict.faults) (Demo.stack ++ ["db"]) "DB"
         literal
       = Some "There are no 'Isolated' subnet groups in this VPC")
  ∧ Fallible.new_RDSInstance (H:=Demo.stage) (H0:=Strict.faults)
      Demo.stack "" Demo.db1 []
    = (Throw "Only root constructs may have an empty ID", []).
Proof.
  split.
  - destruct (construction_errors_classified (P:=Demo.stage) (F:=Strict.faults)
                Demo.stack "db" Demo.site_db []
                "There are no 'Isolated' subnet groups in this VPC"
                _ eq_refl)
      as [[Hsuper _]|[(Hacc & _)|[(_ & _ & Hvpc & _)|(literal & _ & _ & Hlit & Hfault & _)]]];
      [discriminate Hsuper|discriminate Hacc|discriminate Hvpc|].
    exists literal. injection Hlit as <-. split; [reflexivity|]. split; [reflexivity|].
    exact Hfault.
  - destruct (construction_errors_classified (P:=Demo.stage) (F:=Strict.faults)
                Demo.stack "" Demo.db1 []
                "Only root constructs may have an empty ID" _ eq_refl)
      as [[_ Hlog]|[(Hacc & _)|[(_ & _ & _ & Hvpc & _)|(literal & _ & _ & Hlit & Hfault & _)]]];
      [reflexivity|discriminate Hacc| |].
    + vm_compute in Hvpc. discriminate Hvpc.
    + injection Hlit as <-. vm_compute in Hfault. discriminate Hfault.
Defined.
